(** * MubarakAI: request dispatcher, in-memory ledger and Redis memoisation

    A shallow embedding of [core/main_app.py] (class [MubarakAI]) and of
    [caching.py] (decorator [redis_cache]), together with the ledger
    contract of [core.blockchain.BlockchainLedger].

    Python values are embedded as [PyVal], dictionaries with string keys
    as [gmap string PyVal], exceptions as [PyExc].  Coroutines are
    embedded as computations in a state-and-exception monad [M]: every
    [await] is a sequencing point of the monad. *)

From stdpp Require Import gmap strings list sorting pretty.
From Stdlib Require Import ZArith Lia.

Open Scope Z_scope.

(** ** Python values and exceptions *)

(** The JSON-like values carried by envelopes, results and user data. *)
#[local] Unset Elimination Schemes.
Inductive PyVal : Type :=
| VNone
| VBool (b : bool)
| VInt (z : Z)
| VStr (s : string)
| VList (l : list PyVal).
#[local] Set Elimination Schemes.

(** A [Dict[str, Any]]. *)
Abbreviation Dict := (gmap string PyVal).

(** Truth value of an object in a boolean context ([if x:]). *)
Definition truthy (v : PyVal) : bool :=
  match v with
  | VNone => false
  | VBool b => b
  | VInt z => negb (z =? 0)
  | VStr s => negb (String.eqb s "")
  | VList l => match l with [] => false | _ :: _ => true end
  end.

(** [d.get(k)]: the value under [k], or [None]. *)
Definition dict_get (d : Dict) (k : string) : PyVal :=
  default VNone (d !! k).

(** The subclasses of [Exception] that the modelled code can meet.
    [OtherError] stands for any further subclass (database, network and
    handler faults), tagged by its message. *)
Inductive PyExc : Type :=
| ValueError
| AttributeError
| KeyError (key : string)
| TypeError
| OverflowError
| OtherError (msg : string).

(** ** The state-and-exception monad *)

Inductive Res (A : Type) : Type :=
| Ret (a : A)
| Raise (e : PyExc).
Arguments Ret {A} a.
Arguments Raise {A} e.

Definition M (S A : Type) : Type := S -> Res A * S.

Definition ret {S A} (a : A) : M S A := fun s => (Ret a, s).
Definition raise {S A} (e : PyExc) : M S A := fun s => (Raise e, s).
Definition lift {S A} (r : Res A) : M S A := fun s => (r, s).

Definition bind {S A B} (m : M S A) (k : A -> M S B) : M S B :=
  fun s => match m s with
           | (Ret a, s') => k a s'
           | (Raise e, s') => (Raise e, s')
           end.

Definition get_state {S} : M S S := fun s => (Ret s, s).
Definition modify_state {S} (f : S -> S) : M S unit := fun s => (Ret tt, f s).

(** [try: body / except Exception as e: handler e], restricted to the
    exceptions selected by [catches] (an [except (T1, T2)] clause). *)
Definition try_except_when {S A} (catches : PyExc -> bool)
    (body : M S A) (handler : PyExc -> M S A) : M S A :=
  fun s => match body s with
           | (Ret a, s') => (Ret a, s')
           | (Raise e, s') => if catches e then handler e s' else (Raise e, s')
           end.

(** [except Exception]: every member of [PyExc] is caught. *)
Definition try_except {S A} (body : M S A) (handler : PyExc -> M S A) : M S A :=
  try_except_when (fun _ => true) body handler.

(** [try: body / finally: fin].  An exception raised by [fin] replaces the
    outcome of [body]. *)
Definition try_finally {S A} (body : M S A) (fin : M S unit) : M S A :=
  fun s => match body s with
           | (r, s') => match fin s' with
                        | (Ret _, s'') => (r, s'')
                        | (Raise e, s'') => (Raise e, s'')
                        end
           end.

Declare Scope py_scope.
Delimit Scope py_scope with py.
Notation "x <- c1 ;; c2" := (bind c1 (fun x => c2))
  (at level 100, c1 at next level, right associativity) : py_scope.
Notation "c1 ;;; c2" := (bind c1 (fun _ => c2))
  (at level 100, c2 at level 200, right associativity) : py_scope.
Open Scope py_scope.

(** ** Strings *)

(** [needle in hay] for two [str] operands: [needle] occurs somewhere in
    [hay].  Strings are UTF-8 byte sequences; UTF-8 is self-synchronising,
    so an occurrence of a well-formed [needle] in the bytes is an
    occurrence in the code points. *)
Fixpoint str_contains (needle hay : string) : bool :=
  String.prefix needle hay ||
  match hay with
  | EmptyString => false
  | String _ rest => str_contains needle rest
  end.

(** [sep.join(parts)]. *)
Fixpoint str_join (sep : string) (parts : list string) : string :=
  match parts with
  | [] => ""
  | [p] => p
  | p :: rest => p +:+ sep +:+ str_join sep rest
  end.

(** ** caching.py *)

Module Caching.

(** A positional or keyword argument of a cached method: either the
    request's [AsyncSession] or a plain value. *)
Inductive Arg : Type :=
| ArgSession
| ArgVal (v : PyVal).

(** The attribute [redis] of the object owning the method:
    absent ([hasattr] fails), [None], or a client. *)
Inductive RedisAttr : Type :=
| RedisAbsent
| RedisNone
| RedisClient.

Record Owner : Type := {
  redis : RedisAttr;
  has_logger : bool    (* whether [self.logger] exists *)
}.

(** What a decorated coroutine may return: a JSON-like value, or an
    object of a class [json] has no encoder for (a [set], a [datetime],
    an ORM row), given by the name of its class. *)
Inductive PyObj : Type :=
| ObjJson (v : PyVal)
| ObjOther (cls : string).

Section RedisCache.

(** The world the coroutines act on (database, Redis server, log). *)
Variable W : Type.

(** [str(x)] / [f"{x}"] for an argument and for an exception. *)
Variable py_str : Arg -> string.
Variable exc_str : PyExc -> string.

(** The Redis client: [await redis.get(key)] and
    [await redis.setex(key, expiration, value)]. *)
Variable redis_get : string -> M W (option string).
Variable redis_setex : string -> Z -> string -> M W unit.

(** [json.loads] and [json.dumps]. *)
Variable json_loads : string -> Res PyVal.
Variable json_dumps : PyObj -> Res string.

(** [self.logger.warning(msg)], when the attribute exists. *)
Variable logger_warning : string -> M W unit.

(** The decorated coroutine [func(self, *args, **kwargs)] and its
    [__name__]. *)
Variable func : Owner -> list Arg -> list (string * Arg) -> M W PyObj.
Variable func_name : string.

(** [arg.__class__.__name__ == 'AsyncSession'] *)
Definition is_session (a : Arg) : bool :=
  match a with ArgSession => true | ArgVal _ => false end.

(** [sorted(kwargs.items())]: keyword names are distinct, so the order
    is the order of the names. *)
Definition item_le (x y : string * Arg) : Prop := String.leb x.1 y.1 = true.

#[local] Instance item_le_dec x y : Decision (item_le x y).
Proof. unfold item_le. apply _. Defined.

Definition sorted_items (kwargs : list (string * Arg)) : list (string * Arg) :=
  merge_sort item_le kwargs.

Definition _generate_cache_key (args : list Arg) (kwargs : list (string * Arg)) : string :=
  let key_parts := [func_name] in
  let key_parts := key_parts ++ map py_str (filter (fun a => is_session a = false) args) in
  let key_parts := key_parts ++
    map (fun kv => kv.1 +:+ "=" +:+ py_str kv.2)
        (filter (fun kv => kv.1 ≠ "db_session") (sorted_items kwargs)) in
  "cache:" +:+ str_join ":" key_parts.

(** The call [_generate_cache_key(func, *args, **kwargs)] of line 30.
    The first parameter of [_generate_cache_key] is named [func] and is
    passed by position: a keyword argument of that name is bound to it a
    second time, and the call raises [TypeError] before the body runs. *)
Definition _generate_cache_key_call (args : list Arg) (kwargs : list (string * Arg))
    : Res string :=
  if bool_decide ("func" ∈ kwargs.*1) then Raise TypeError
  else Ret (_generate_cache_key args kwargs).

(** [self.logger.warning(...)] inside the [except] clause. *)
Definition self_logger_warning (self : Owner) (msg : string) : M W unit :=
  if has_logger self then logger_warning msg else raise AttributeError.

Definition is_type_or_overflow (e : PyExc) : bool :=
  match e with TypeError | OverflowError => true | _ => false end.

(** [redis_cache(expiration)(func)], the coroutine [wrapper]. *)
Definition wrapper (expiration : Z) (self : Owner)
    (args : list Arg) (kwargs : list (string * Arg)) : M W PyObj :=
  match redis self with
  | RedisAbsent | RedisNone => func self args kwargs
  | RedisClient =>
      cache_key <- lift (_generate_cache_key_call args kwargs) ;;
      cached_result <- redis_get cache_key ;;
      match cached_result with
      | Some (String c s) =>
          decoded <- lift (json_loads (String c s)) ;;
          ret (ObjJson decoded)
      | _ =>
          result <- func self args kwargs ;;
          try_except_when is_type_or_overflow
            (json_result <- lift (json_dumps result) ;;
             redis_setex cache_key expiration json_result)
            (fun e => self_logger_warning self
               ("Не удалось кэшировать результат для ключа " +:+ cache_key +:+
                ": " +:+ exc_str e)) ;;;
          ret result
      end
  end.

Definition redis_cache (expiration : Z) := wrapper expiration.

End RedisCache.

End Caching.

(** ** core/blockchain.py: the in-memory ledger *)

Module Ledger.

(** Modelled from the spec: the class [Transaction] of the ledger is not
    in the sources.  "Transaction (ledger): sender identifier, recipient
    identifier, positive integer amount." *)
Record Transaction : Type := {
  sender : string;
  recipient : string;
  amount : Z
}.

(** Modelled from the spec: the class [Block] is not in the sources.
    "Block: index, timestamp, ordered list of transactions, proof value,
    previous-block hash", each block "sealing all currently pending
    transactions plus a caller-supplied proof value and miner
    identifier". *)
Record Block : Type := {
  index : nat;
  timestamp : Z;
  transactions : list Transaction;
  proof : Z;
  previous_hash : string;
  miner : string
}.

(** Modelled from the spec: the class [BlockchainLedger] is not in the
    sources.  "holds a pending-transaction list and a chain of blocks";
    the chain is kept oldest block first. *)
Record BlockchainLedger : Type := {
  chain : list Block;
  pending_transactions : list Transaction
}.

#[global] Instance Transaction_eq_dec : EqDecision Transaction.
Proof. solve_decision. Defined.

Section Chain.

(** The hash of a block, and the genesis block the constructor makes. *)
Variable hash : Block -> string.
Variable genesis : Block.

(** Modelled from the spec: [BlockchainLedger()] is not in the sources.
    A fresh ledger holds the genesis block and an empty pool. *)
Definition new_ledger : BlockchainLedger :=
  {| chain := [genesis]; pending_transactions := [] |}.

(** The block a new block follows: [self.chain[-1]]. *)
Definition last_block (l : BlockchainLedger) : Block :=
  default genesis (last (chain l)).

(** Modelled from the spec: [add_transaction] is not in the sources.
    A transaction "lives only in the pending pool" until it is
    included in a block. *)
Definition add_transaction (tx : Transaction) (l : BlockchainLedger) : BlockchainLedger :=
  {| chain := chain l;
     pending_transactions := pending_transactions l ++ [tx] |}.

(** Modelled from the spec: [create_block] is not in the sources.
    "sealing a block always moves every currently pending transaction
    into the new block and leaves the pending pool empty; the new
    block's previous-hash equals the hash of the block it follows". *)
Definition create_block (proof : Z) (miner : string) (now : Z)
    (l : BlockchainLedger) : BlockchainLedger :=
  let block := {| index := length (chain l);
                  timestamp := now;
                  transactions := pending_transactions l;
                  proof := proof;
                  previous_hash := hash (last_block l);
                  miner := miner |} in
  {| chain := chain l ++ [block]; pending_transactions := [] |}.

(** The operations that change a ledger, and their runs from a fresh
    ledger: the reachable states. *)
Inductive Op : Type :=
| OpAddTransaction (tx : Transaction)
| OpCreateBlock (proof : Z) (miner : string) (now : Z).

Definition apply_op (l : BlockchainLedger) (op : Op) : BlockchainLedger :=
  match op with
  | OpAddTransaction tx => add_transaction tx l
  | OpCreateBlock p m t => create_block p m t l
  end.

Definition run (ops : list Op) : BlockchainLedger :=
  fold_left apply_op ops new_ledger.

Definition is_seal (op : Op) : bool :=
  match op with OpCreateBlock _ _ _ => true | OpAddTransaction _ => false end.

(** Number of seal operations in a run. *)
Definition seals (ops : list Op) : nat :=
  length (filter (fun op => is_seal op = true) ops).


(** The number of transactions sealed in the blocks before block [i]:
    the place, in the sequence of all sealed transactions, of the first
    transaction of block [i]. *)
Definition block_start (c : list Block) (i : nat) : nat :=
  length (concat (map transactions (take i c))).

(** Every block but the first stores the hash of the block before it. *)
Definition linked (c : list Block) : Prop :=
  forall (i : nat) (b1 b2 : Block),
    c !! i = Some b1 -> c !! S i = Some b2 -> previous_hash b2 = hash b1.

End Chain.

End Ledger.

(** ** core/main_app.py: class MubarakAI *)

Module MainApp.

Import Ledger.

(** Modelled from the spec: the enum [ModuleType] of [models] is not in
    the sources.  Its members are the seven "enum-like string tags" that
    [MubarakAI.__init__] registers, in that order. *)
Inductive ModuleType : Type :=
| FARD_AI
| BAITUL_HIKMA
| AR_RIHLA
| UMMAH_WAQF
| SALAM_HEALTH
| NUTRITION_HALAL
| CAREER_UMMA.

#[global] Instance ModuleType_eq_dec : EqDecision ModuleType.
Proof. solve_decision. Defined.

Definition ModuleType_members : list ModuleType :=
  [FARD_AI; BAITUL_HIKMA; AR_RIHLA; UMMAH_WAQF; SALAM_HEALTH; NUTRITION_HALAL; CAREER_UMMA].

(** Modelled from the spec: the enum [UserRole] of [models] is not in the
    sources.  Its members are those [_detect_initial_roles] names. *)
Inductive UserRole : Type :=
| MUSLIM
| STUDENT
| TEACHER
| INVESTOR
| HOST_FAMILY
| ADMIN.

#[global] Instance UserRole_eq_dec : EqDecision UserRole.
Proof. solve_decision. Defined.

(** The dataclass [MubarakUser], with the fields [register_user] fills. *)
Record MubarakUser : Type := {
  user_id : string;
  wallet_address : PyVal;
  email : PyVal;
  phone : PyVal;
  full_name : PyVal;
  birth_year : PyVal;
  gender : PyVal;
  location : PyVal;
  roles : list UserRole
}.

(** A module's [process_request(user_id, request, db_session=...)]: it
    returns a result mapping or raises, and may change the ledger it
    shares with the application ([module.set_ledger]). *)
Definition Handler : Type := string -> Dict -> M BlockchainLedger Dict.

(** A registered module object; an attribute may be missing ([hasattr]). *)
Record Module : Type := {
  initialize : option (MubarakUser -> Res PyVal);
  mod_process_request : option Handler
}.

(** The entry [self.sessions[user_id]]. *)
Record UserSession : Type := {
  created_at : string;
  active_modules : list ModuleType;
  module_states : Dict
}.

(** The attributes of a [MubarakAI] object that the modelled methods
    read.  [modules] is a [dict] in insertion order; [logger] is the
    instance attribute [self.logger], which may be absent. *)
Record MubarakAI : Type := {
  modules : list (ModuleType * Module);
  BLOCK_CREATION_THRESHOLD : Z;
  node_identifier : string;
  logger : option unit
}.

(** [MubarakAI.__init__]: seven modules, threshold 5, a fresh node
    identifier; no attribute [logger] is assigned. *)
Definition __init__ (module_of : ModuleType -> Module) (uuid : string) : MubarakAI :=
  {| modules := map (fun t => (t, module_of t)) ModuleType_members;
     BLOCK_CREATION_THRESHOLD := 5;
     node_identifier := uuid;
     logger := None |}.

(** [key in d] and [d[key]] for the registry. *)
Fixpoint modules_lookup (ms : list (ModuleType * Module)) (t : ModuleType) : option Module :=
  match ms with
  | [] => None
  | (t', m) :: rest => if decide (t' = t) then Some m else modules_lookup rest t
  end.

(** The calls made on the request's [AsyncSession] by [get_db_session]
    and by the method that uses it, in order. *)
Inductive SessionCall : Type :=
| SOpen        (* self.Session() *)
| SExecute     (* await db_session.execute(...) *)
| SAdd         (* db_session.add(...) *)
| SCommit      (* await db_session.commit() *)
| SRollback    (* await session.rollback() *)
| SClose.      (* await session.close() *)

#[global] Instance SessionCall_eq_dec : EqDecision SessionCall.
Proof. solve_decision. Defined.

(** Number of calls [c] in a log. *)
Definition calls (c : SessionCall) (log : list SessionCall) : nat :=
  length (filter (fun x => x = c) log).

(** The mutable state a request acts on. *)
Record World : Type := {
  session_log : list SessionCall;
  main_ledger : BlockchainLedger;
  sessions : gmap string UserSession
}.

(** What the collaborators answer during one call: faults of the
    database operations, the row read, the random proof, the clock and
    the recommendation engine.  [now_isoformat n] is the answer of the
    n-th [datetime.now().isoformat()] of the call. *)
Record Env : Type := {
  Session_fault : option PyExc;
  execute_first : Res PyVal;
  commit_fault : option PyExc;
  rollback_fault : option PyExc;
  close_fault : option PyExc;
  randint : Z;
  time_now : Z;
  now_year : Z;
  now_isoformat : nat -> string;
  generate_recommendations : string -> PyVal -> Dict -> Res PyVal
}.

Definition log_call (c : SessionCall) : M World unit :=
  modify_state (fun w => {| session_log := session_log w ++ [c];
                            main_ledger := main_ledger w;
                            sessions := sessions w |}).

Definition fault (f : option PyExc) : M World unit :=
  match f with Some e => raise e | None => ret tt end.

Definition session_open (env : Env) : M World unit :=
  fault (Session_fault env) ;;; log_call SOpen.
Definition session_execute (env : Env) : M World PyVal :=
  log_call SExecute ;;; lift (execute_first env).
Definition session_add : M World unit := log_call SAdd.
Definition session_commit (env : Env) : M World unit :=
  log_call SCommit ;;; fault (commit_fault env).
Definition session_rollback (env : Env) : M World unit :=
  log_call SRollback ;;; fault (rollback_fault env).
Definition session_close (env : Env) : M World unit :=
  log_call SClose ;;; fault (close_fault env).

(** Run a computation on the ledger inside the world. *)
Definition on_ledger {A} (m : M BlockchainLedger A) : M World A :=
  fun w => match m (main_ledger w) with
           | (r, l) => (r, {| session_log := session_log w;
                              main_ledger := l;
                              sessions := sessions w |})
           end.

(** [async with self.get_db_session() as db_session: body]. *)
Definition get_db_session {A} (env : Env) (body : M World A) : M World A :=
  session_open env ;;;
  try_finally
    (try_except body (fun e => session_rollback env ;;; raise e))
    (session_close env).

(** [d[k]] *)
Definition subscript {S} (d : Dict) (k : string) : M S PyVal :=
  match d !! k with
  | Some v => ret v
  | None => raise (KeyError k)
  end.

(** The right operand of [int - x]. *)
Definition int_operand {S} (v : PyVal) : M S Z :=
  match v with
  | VInt z => ret z
  | VBool b => ret (if b then 1 else 0)
  | _ => raise TypeError
  end.

(** ["..." in x] for a string on the left. *)
Definition str_in {S} (needle : string) (v : PyVal) : M S bool :=
  match v with
  | VStr s => ret (str_contains needle s)
  | VList l => ret (existsb (fun x => match x with
                                      | VStr s => String.eqb s needle
                                      | _ => false
                                      end) l)
  | _ => raise TypeError
  end.

(** Lines 226-227: the request as the handler receives it, with the
    user's language when the query found one. *)
Definition injected (user_db : PyVal) (request : Dict) : Dict :=
  if truthy user_db then <["user_language" := user_db]> request else request.

Definition internal_error : Dict :=
  <["success" := VBool false]>
    {["error" := VStr "Произошла внутренняя ошибка сервера."]}.

Section Application.

(** The ledger's hash and genesis block. *)
Variable hash : Block -> string.
Variable genesis : Block.

(** [member.value] for the members of [ModuleType]. *)
Variable ModuleType_value : ModuleType -> string.

(** [hashlib.sha256(s.encode()).hexdigest()], [str(x)] / [f"{x}"],
    [str(e)] for an exception and [str.lower]. *)
Variable sha256_hexdigest : string -> string.
Variable py_str : PyVal -> string.
Variable exc_str : PyExc -> string.
Variable str_lower : string -> string.

(** [_generate_welcome_package(user)], which reads methods of the
    dataclass. *)
Variable _generate_welcome_package : MubarakUser -> Res PyVal.

(** [ModuleType(value)]: the member with that value, else [ValueError]. *)
Definition ModuleType_call (v : PyVal) : Res ModuleType :=
  match v with
  | VStr s =>
      match find (fun m => String.eqb (ModuleType_value m) s) ModuleType_members with
      | Some m => Ret m
      | None => Raise ValueError
      end
  | _ => Raise ValueError
  end.

(** Line 210:
    [ModuleType(module_name) if module_name else ModuleType.FARD_AI]. *)
Definition resolve_module_type (module_name : PyVal) : Res ModuleType :=
  if truthy module_name then ModuleType_call module_name else Ret FARD_AI.

(** [self.logger.info(...)]: the attribute lookup on [self] comes first. *)
Definition self_logger_info {S} (self : MubarakAI) : M S unit :=
  match logger self with
  | Some _ => ret tt
  | None => raise AttributeError
  end.

(** Lines 249-251 of [process_request]: seal a block when the pool has
    reached the threshold.  No [await] separates the test from the
    call. *)
Definition seal_on_threshold (self : MubarakAI) (env : Env) : M BlockchainLedger unit :=
  l <- get_state ;;
  if BLOCK_CREATION_THRESHOLD self <=? Z.of_nat (length (pending_transactions l)) then
    self_logger_info self ;;;
    modify_state (create_block hash genesis (randint env) (node_identifier self) (time_now env))
  else ret tt.

(** One turn of the loop of [_periodic_block_creation_task], after the
    [await asyncio.sleep(600)]. *)
Definition periodic_iteration (self : MubarakAI) (env : Env) : M BlockchainLedger unit :=
  l <- get_state ;;
  match pending_transactions l with
  | _ :: _ =>
      self_logger_info self ;;;
      modify_state (create_block hash genesis (randint env) (node_identifier self) (time_now env))
  | [] => self_logger_info self
  end.

(** [_periodic_block_creation_task]: [while True] over the successive
    wake-ups; an exception ends the task. *)
Fixpoint _periodic_block_creation_task (self : MubarakAI) (wakeups : list Env)
    : M BlockchainLedger unit :=
  match wakeups with
  | [] => ret tt
  | env :: rest =>
      periodic_iteration self env ;;; _periodic_block_creation_task self rest
  end.

Definition process_request (self : MubarakAI) (env : Env)
    (user_id : string) (request : Dict) : M World Dict :=
  let request_type := dict_get request "type" in
  let module_name := dict_get request "module" in
  module_type <- lift (resolve_module_type module_name) ;;
  match modules_lookup (modules self) module_type with
  | None => ret {["error" := VStr "Модуль не найден"]}
  | Some module =>
      match mod_process_request module with
      | None =>
          ret {["error" := VStr ("Module " +:+ ModuleType_value module_type +:+
                                 " does not have process_request method")]}
      | Some handler =>
          get_db_session env
            (try_except
               (user_db <- session_execute env ;;
                let request := injected user_db request in
                result <- on_ledger (handler user_id request) ;;
                (if truthy (dict_get result "success")
                 then session_commit env
                 else session_rollback env) ;;;
                on_ledger (seal_on_threshold self env) ;;;
                additional_recommendations <-
                  lift (generate_recommendations env user_id request_type result) ;;
                ret (<["additional_recommendations" := additional_recommendations]> result))
               (fun e => ret internal_error))
      end
  end.

Definition _detect_initial_roles {S} (env : Env) (user_data : Dict) : M S (list UserRole) :=
  let roles := [MUSLIM] in
  birth_year <- subscript user_data "birth_year" ;;
  year <- int_operand birth_year ;;
  let age := now_year env - year in
  let roles := if (18 <=? age) && (age <=? 30) then roles ++ [STUDENT] else roles in
  profession <- match default (VStr "") (user_data !! "profession") with
                | VStr s => ret (str_lower s)
                | _ => raise AttributeError
                end ;;
  let roles :=
    if existsb (fun word => str_contains word profession)
               ["teacher"; "учитель"; "преподаватель"]
    then roles ++ [TEACHER] else roles in
  let roles :=
    if existsb (fun word => str_contains word profession)
               ["investor"; "инвестор"; "финанс"]
    then roles ++ [INVESTOR] else roles in
  let roles :=
    match dict_get user_data "family_status" with
    | VStr s => if String.eqb s "family" then roles ++ [HOST_FAMILY] else roles
    | _ => roles
    end in
  email <- subscript user_data "email" ;;
  is_admin <- str_in "admin" email ;;
  ret (if is_admin : bool then roles ++ [ADMIN] else roles).

(** The third component of the tuple [register_user] returns on
    success. *)
Record Registration : Type := {
  reg_user : MubarakUser;
  reg_api_key : string;
  reg_module_initializations : Dict;
  reg_welcome_package : PyVal;
  reg_next_steps : list string
}.

(** The loop over [self.modules.items()] in [register_user]. *)
Fixpoint initialize_modules {S} (ms : list (ModuleType * Module))
    (user : MubarakUser) (module_initializations : Dict) : M S Dict :=
  match ms with
  | [] => ret module_initializations
  | (module_type, module) :: rest =>
      match initialize module with
      | Some init =>
          state <- lift (init user) ;;
          initialize_modules rest user
            (<[ModuleType_value module_type := state]> module_initializations)
      | None => initialize_modules rest user module_initializations
      end
  end.

Definition register_user (self : MubarakAI) (env : Env) (user_data : Dict)
    : M World (bool * string * option Registration) :=
  try_except
    (email0 <- subscript user_data "email" ;;
     let user_id :=
       String.substring 0 12 (sha256_hexdigest (py_str email0 +:+ now_isoformat env 0%nat)) in
     let wallet_address := default (VStr "") (user_data !! "wallet_address") in
     email <- subscript user_data "email" ;;
     phone <- subscript user_data "phone" ;;
     full_name <- subscript user_data "full_name" ;;
     birth_year <- subscript user_data "birth_year" ;;
     gender <- subscript user_data "gender" ;;
     location <- subscript user_data "location" ;;
     roles <- _detect_initial_roles env user_data ;;
     let user := {| user_id := user_id; wallet_address := wallet_address;
                    email := email; phone := phone; full_name := full_name;
                    birth_year := birth_year; gender := gender;
                    location := location; roles := roles |} in
     let api_key := sha256_hexdigest (user_id +:+ now_isoformat env 1%nat) in
     get_db_session env (session_add ;;; session_commit env) ;;;
     module_initializations <- initialize_modules (modules self) user ∅ ;;
     modify_state (fun w =>
       {| session_log := session_log w;
          main_ledger := main_ledger w;
          sessions := <[user_id := {| created_at := now_isoformat env 2%nat;
                                      active_modules := map fst (modules self);
                                      module_states := module_initializations |}]>
                        (sessions w) |}) ;;;
     welcome_package <- lift (_generate_welcome_package user) ;;
     ret (true, user_id,
          Some {| reg_user := user;
                  reg_api_key := api_key;
                  reg_module_initializations := module_initializations;
                  reg_welcome_package := welcome_package;
                  reg_next_steps := ["complete_profile"; "setup_preferences";
                                     "explore_modules"; "join_community"] |}))
    (fun e => ret (false, exc_str e, None)).

(** The role list of the user a call of [register_user] created, when it
    reports success. *)
Definition registered_roles (r : Res (bool * string * option Registration))
    : option (list UserRole) :=
  match r with
  | Ret (true, _, Some reg) => Some (roles (reg_user reg))
  | _ => None
  end.

(** *** The two sealing triggers under the cooperative scheduler

    The ledger is touched by a request only inside a module handler
    and at lines 249-251, and by the periodic task only between two
    sleeps.  None of these segments contains an [await], so under the
    event loop they run one after another in some order: an
    interleaving is a list of events. *)
Inductive Event : Type :=
| EvSubmit (tx : Transaction)   (* a handler adds a transaction to the pool *)
| EvThreshold (env : Env)       (* a request reaches lines 249-251 *)
| EvTimer (env : Env).          (* the periodic task wakes up *)

(** The shared ledger and whether the periodic task is still running. *)
Definition SchedState : Type := (BlockchainLedger * bool)%type.

Definition sched_step (self : MubarakAI) (st : SchedState) (ev : Event) : SchedState :=
  match ev with
  | EvSubmit tx => (add_transaction tx st.1, st.2)
  | EvThreshold env => ((seal_on_threshold self env st.1).2, st.2)
  | EvTimer env =>
      if st.2 then
        match periodic_iteration self env st.1 with
        | (Ret _, l) => (l, true)
        | (Raise _, l) => (l, false)
        end
      else st
  end.

Definition run_schedule (self : MubarakAI) (evs : list Event) : SchedState :=
  fold_left (sched_step self) evs (new_ledger genesis, true).



End Application.

End MainApp.

(** ** Concrete objects used to run the model *)

Module Examples.

Import Ledger MainApp.

Definition example_value (m : ModuleType) : string :=
  match m with
  | FARD_AI => "fard_ai"
  | BAITUL_HIKMA => "baitul_hikma"
  | AR_RIHLA => "ar_rihla"
  | UMMAH_WAQF => "ummah_waqf"
  | SALAM_HEALTH => "salam_health"
  | NUTRITION_HALAL => "nutrition_halal"
  | CAREER_UMMA => "career_umma"
  end.

Definition example_hash (b : Block) : string :=
  previous_hash b +:+ "/" +:+ miner b.

Definition example_genesis : Block :=
  {| index := 0; timestamp := 0; transactions := []; proof := 100;
     previous_hash := "1"; miner := "" |}.

Definition tx (a : Z) : Transaction :=
  {| sender := "alice"; recipient := "waqf"; amount := a |}.

(** A handler that records one donation and reports success, one that
    reports a failure, and one that faults. *)
Definition donate_handler : Handler :=
  fun _ _ => modify_state (add_transaction (tx 100)) ;;;
             ret (<["success" := VBool true]> ∅).

Definition failing_handler : Handler :=
  fun _ _ => ret (<["success" := VBool false]> {["error" := VStr "no such goal"]}).

Definition faulting_handler : Handler :=
  fun _ _ => raise (OtherError "handler fault").

Definition module_with (h : Handler) : Module :=
  {| initialize := Some (fun _ => Ret VNone); mod_process_request := Some h |}.

Definition app_with (h : Handler) : MubarakAI :=
  __init__ (fun _ => module_with h) "node0".

Definition quiet_env : Env :=
  {| Session_fault := None;
     execute_first := Ret (VStr "ru");
     commit_fault := None;
     rollback_fault := None;
     close_fault := None;
     randint := 4711;
     time_now := 1700000000;
     now_year := 2026;
     now_isoformat := fun _ => "2026-01-01T00:00:00";
     generate_recommendations := fun _ _ _ => Ret (VList []) |}.

Definition ledger_with (pending : list Transaction) : BlockchainLedger :=
  {| chain := [example_genesis]; pending_transactions := pending |}.

Definition world_with (pending : list Transaction) : World :=
  {| session_log := []; main_ledger := ledger_with pending; sessions := ∅ |}.

Definition unknown_request : Dict := {["module" := VStr "unknown_tag"]}.

Definition waqf_request : Dict :=
  <["module" := VStr "ummah_waqf"]> {["type" := VStr "donate"]}.

Definition admin_data : Dict :=
  <["email" := VStr "admin@example.com"]>
  (<["phone" := VStr "+100"]>
  (<["full_name" := VStr "A B"]>
  (<["birth_year" := VInt 2000]>
  (<["gender" := VStr "m"]>
  {["location" := VStr "Kazan"]})))).

(** Lower-casing of the ASCII letters. *)
Definition lower_ascii (c : Ascii.ascii) : Ascii.ascii :=
  let n := Ascii.nat_of_ascii c in
  if ((65 <=? n) && (n <=? 90))%nat then Ascii.ascii_of_nat (n + 32) else c.

Fixpoint ascii_lower (s : string) : string :=
  match s with
  | EmptyString => EmptyString
  | String c rest => String (lower_ascii c) (ascii_lower rest)
  end.

(** An application object that has been given a [logger] attribute. *)
Definition logging_app (h : Handler) : MubarakAI :=
  {| modules := modules (app_with h);
     BLOCK_CREATION_THRESHOLD := BLOCK_CREATION_THRESHOLD (app_with h);
     node_identifier := node_identifier (app_with h);
     logger := Some tt |}.

Definition busy_schedule : list (Event) :=
  [EvSubmit (tx 1); EvSubmit (tx 2); EvTimer quiet_env; EvSubmit (tx 3);
   EvSubmit (tx 4); EvSubmit (tx 5); EvSubmit (tx 6); EvSubmit (tx 7);
   EvThreshold quiet_env; EvTimer quiet_env; EvSubmit (tx 8)].

(** The same donation handed in twice, with a timer wake-up after
    each: two transactions with equal data. *)
Definition repeated_schedule : list (Event) :=
  [EvSubmit (tx 100); EvTimer quiet_env; EvSubmit (tx 100); EvTimer quiet_env].

End Examples.

(** ** core/main_app.py: helpers, node registry and dashboard *)

Module AppMore.

Import Ledger MainApp.

(** The keys [register_user] reads with [user_data[...]], in the order
    it reads them. *)
Definition required_fields : list string :=
  ["email"; "phone"; "full_name"; "birth_year"; "gender"; "location"].

(** The text [_detect_initial_roles] searches for profession keywords:
    [user_data.get('profession', '').lower()]. *)
Definition profession_text (str_lower : string -> string) (user_data : Dict) : string :=
  match user_data !! "profession" with
  | Some (VStr s) => str_lower s
  | _ => str_lower ""
  end.

(** The kinds of value [_detect_initial_roles] can meet under a key,
    by what lines 390, 395 and 407 do with them.  [int - x] accepts an
    integer (a [bool] is one) and raises [TypeError] on [None], a string
    or a list. *)
Definition int_valued (v : option PyVal) : Prop :=
  match v with Some (VInt _) | Some (VBool _) => True | _ => False end.

Definition none_str_or_list (v : option PyVal) : Prop :=
  match v with Some VNone | Some (VStr _) | Some (VList _) => True | _ => False end.

(** [user_data.get(key, '').lower()] works on a string or a missing
    key, and raises [AttributeError] on [None], a boolean, an integer or
    a list, none of which has a method [lower]. *)
Definition str_or_absent (v : option PyVal) : Prop :=
  match v with None | Some (VStr _) => True | _ => False end.

Definition present_not_str (v : option PyVal) : Prop :=
  match v with
  | Some VNone | Some (VBool _) | Some (VInt _) | Some (VList _) => True
  | _ => False
  end.

(** ["admin" in x] works on a string or a list, and raises [TypeError]
    on [None], a boolean or an integer. *)
Definition str_or_list (v : option PyVal) : Prop :=
  match v with Some (VStr _) | Some (VList _) => True | _ => False end.

Definition none_bool_or_int (v : option PyVal) : Prop :=
  match v with Some VNone | Some (VBool _) | Some (VInt _) => True | _ => False end.

(** The roles in the order [_detect_initial_roles] appends them. *)
Definition role_order : list UserRole :=
  [MUSLIM; STUDENT; TEACHER; INVESTOR; HOST_FAMILY; ADMIN].

(** [_get_synergy_suggestion]: the table of suggestions, looked up in
    both orders, with a default. *)
Definition suggestions : list (ModuleType * ModuleType * string) :=
  [ (FARD_AI, BAITUL_HIKMA,
     "Используйте знания из Baitul Hikma для улучшения поклонения");
    (AR_RIHLA, UMMAH_WAQF,
     "Инвестируйте в вакфы для поддержки путешественников знаний");
    (FARD_AI, AR_RIHLA,
     "Найдите попутчиков для совместного поклонения");
    (BAITUL_HIKMA, UMMAH_WAQF,
     "Проверьте вакфы на шариатское соответствие") ].

(** [table.get((a, b), default)] *)
Fixpoint pair_get (table : list (ModuleType * ModuleType * string))
    (a b : ModuleType) (default : string) : string :=
  match table with
  | [] => default
  | (a', b', v) :: rest =>
      if decide (a' = a /\ b' = b) then v else pair_get rest a b default
  end.

Definition _get_synergy_suggestion (mod1 mod2 : ModuleType) : string :=
  pair_get suggestions mod1 mod2
    (pair_get suggestions mod2 mod1 "Используйте оба модуля для большего эффекта").

(** *** _prioritize_recommendations *)

(** [priority_weights.get(x.get("priority", "low"), 1)]: a list is not
    hashable, so it cannot be looked up. *)
Definition priority_weight (x : Dict) : Res Z :=
  match default (VStr "low") (x !! "priority") with
  | VStr s =>
      Ret (if String.eqb s "high" then 3
           else if String.eqb s "medium" then 2
           else if String.eqb s "low" then 1
           else 1)
  | VList _ => Raise TypeError
  | _ => Ret 1
  end.

(** The sort key of the n-th recommendation: its weight and the n-th
    draw of [random.random()].  The draws enter only through their
    order; an integer stands for each. *)
Definition SortKey : Type := (Z * Z)%type.

(** [k1 < k2] on tuples. *)
Definition key_lt (k1 k2 : SortKey) : bool :=
  (k1.1 <? k2.1) || ((k1.1 =? k2.1) && (k1.2 <? k2.2)).

(** The keys of the recommendations, computed once each, in order. *)
Fixpoint decorate (random : nat -> Z) (n : nat) (recs : list Dict)
    : Res (list (SortKey * Dict)) :=
  match recs with
  | [] => Ret []
  | x :: rest =>
      match priority_weight x with
      | Raise e => Raise e
      | Ret weight =>
          match decorate random (S n) rest with
          | Raise e => Raise e
          | Ret keyed => Ret ((weight, random n, x) :: keyed)
          end
      end
  end.

(** [sorted(..., reverse=True)]: greatest key first, items with equal
    keys in their original order. *)
Fixpoint insert_desc (x : SortKey * Dict) (l : list (SortKey * Dict))
    : list (SortKey * Dict) :=
  match l with
  | [] => [x]
  | y :: rest => if key_lt x.1 y.1 then y :: insert_desc x rest else x :: y :: rest
  end.

Definition sorted_reverse (l : list (SortKey * Dict)) : list (SortKey * Dict) :=
  foldr insert_desc [] l.

Definition _prioritize_recommendations (random : nat -> Z)
    (recommendations : list Dict) : Res (list Dict) :=
  match decorate random 0 recommendations with
  | Raise e => Raise e
  | Ret keyed => Ret (take 10 (map snd (sorted_reverse keyed)))
  end.

(** A recommendation whose priority is missing or is [None], a
    boolean, an integer or a string: values that can be hashed. *)
Definition plain_priority (x : Dict) : Prop :=
  match x !! "priority" with
  | None | Some VNone | Some (VBool _) | Some (VInt _) | Some (VStr _) => True
  | Some (VList _) => False
  end.

(** The weight of a recommendation whose priority can be looked up. *)
Definition weight_of (x : Dict) : Z :=
  match priority_weight x with Ret weight => weight | Raise _ => 1 end.

(** Greatest key first: the order [sorted_reverse] establishes. *)
Definition key_ge (a b : SortKey * Dict) : Prop := key_lt a.1 b.1 = false.

(** The blocks after the first all carry transactions. *)
Definition sealed_nonempty (l : BlockchainLedger) : Prop :=
  chain l <> [] /\ Forall (fun b => transactions b <> []) (drop 1 (chain l)).

(** *** register_nodes *)

Section Nodes.

(** [urlparse(node_url)]: the [netloc] and [path] of the result, or the
    exception it raises. *)
Variable urlparse : string -> Res (string * string).

Definition is_value_error (e : PyExc) : bool :=
  match e with ValueError => true | _ => false end.

(** One turn of the loop of [register_nodes], on [self.nodes]. *)
Definition register_node (node_url : string) : M (gset string) unit :=
  try_except_when is_value_error
    (parsed_url <- lift (urlparse node_url) ;;
     if negb (String.eqb parsed_url.1 "") then
       modify_state (fun nodes => nodes ∪ {[parsed_url.1]})
     else if negb (String.eqb parsed_url.2 "") then
       modify_state (fun nodes => nodes ∪ {[parsed_url.2]})
     else raise ValueError)
    (fun e => ret tt).

(** [register_nodes]: the answer carries the message and the node set. *)
Fixpoint register_nodes (nodes : list string) : M (gset string) (string * gset string) :=
  match nodes with
  | [] => total_nodes <- get_state ;;
          ret ("Новые узлы успешно добавлены", total_nodes)
  | node_url :: rest => register_node node_url ;;; register_nodes rest
  end.

(** The address a URL is registered under, if any. *)
Definition node_address (node_url : string) : option string :=
  match urlparse node_url with
  | Ret (netloc, path) =>
      if negb (String.eqb netloc "") then Some netloc
      else if negb (String.eqb path "") then Some path
      else None
  | Raise _ => None
  end.

End Nodes.

(** *** get_daily_dashboard *)

Section Dashboard.

(** The row the query finds ([full_name], [career_level]), if any, and
    [module.get_daily_recommendations(user_id, context=...)] for the
    module registered under a key. *)
Variable user_row : Res (option (PyVal * PyVal)).
Variable get_daily_recommendations :
  ModuleType -> Module -> string -> PyVal -> Res (list PyVal).

(** The loop over [self.modules.items()]: a module that raises is
    skipped. *)
Fixpoint collect_recommendations (ms : list (ModuleType * Module))
    (user_id : string) (career_level : PyVal) (all_recommendations : list PyVal)
    : list PyVal :=
  match ms with
  | [] => all_recommendations
  | (module_type, module) :: rest =>
      match get_daily_recommendations module_type module user_id career_level with
      | Ret recs =>
          collect_recommendations rest user_id career_level (all_recommendations ++ recs)
      | Raise _ =>
          collect_recommendations rest user_id career_level all_recommendations
      end
  end.

Definition get_daily_dashboard (self : MubarakAI) (env : Env) (user_id : string)
    : M World Dict :=
  get_db_session env
    (user_db <- (log_call SExecute ;;; lift user_row) ;;
     match user_db with
     | None => ret {["error" := VStr "Пользователь не найден"]}
     | Some (full_name, career_level) =>
         let all_recommendations :=
           collect_recommendations (modules self) user_id career_level [] in
         ret (<["recommendations" := VList all_recommendations]>
                {["user_name" := full_name]})
     end).

(** The recommendations of one module, empty when it raises. *)
Definition module_recommendations (user_id : string) (career_level : PyVal)
    (entry : ModuleType * Module) : list PyVal :=
  match get_daily_recommendations entry.1 entry.2 user_id career_level with
  | Ret recs => recs
  | Raise _ => []
  end.

End Dashboard.

End AppMore.

(** ** api/routers/ummah_waqf.py *)

Module Routers.

Import Ledger MainApp.

(** What an endpoint gives the framework: a response body, an
    [HTTPException], or an exception it does not handle. *)
Inductive Outcome : Type :=
| Response (body : Dict)
| HTTPException (status_code : Z) (detail : PyVal)
| Unhandled (e : PyExc).

Section Waqf.

Variable hash : Block -> string.
Variable genesis : Block.
Variable ModuleType_value : ModuleType -> string.

(** [result.get("error", default)] *)
Definition get_or (d : Dict) (k : string) (default : PyVal) : PyVal :=
  match d !! k with Some v => v | None => default end.

Definition list_available_waqfs (skip limit : Z) (mubarakai : MubarakAI) (env : Env)
    : World -> Outcome * World :=
  fun w =>
    let request : Dict :=
      <["limit" := VInt limit]>
        (<["skip" := VInt skip]>
           (<["type" := VStr "list_waqfs"]>
              {["module" := VStr (ModuleType_value UMMAH_WAQF)]})) in
    match process_request hash genesis ModuleType_value mubarakai env "system" request w with
    | (Raise e, w') => (Unhandled e, w')
    | (Ret result, w') =>
        if negb (truthy (dict_get result "success")) then
          (HTTPException 500
             (get_or result "error" (VStr "Не удалось получить список вакфов.")), w')
        else (Response result, w')
    end.

(** [waqf_data.model_dump()] is the mapping [waqf_data]; its keys are
    laid over ["module"] and ["type"]. *)
Definition create_new_waqf (waqf_data : Dict) (user_id : string)
    (mubarakai : MubarakAI) (env : Env) : World -> Outcome * World :=
  fun w =>
    let request : Dict :=
      waqf_data ∪ (<["type" := VStr "create_waqf"]>
                     {["module" := VStr (ModuleType_value UMMAH_WAQF)]}) in
    match process_request hash genesis ModuleType_value mubarakai env user_id request w with
    | (Raise e, w') => (Unhandled e, w')
    | (Ret result, w') =>
        if negb (truthy (dict_get result "success")) then
          (HTTPException 400
             (get_or result "error" (VStr "Не удалось создать вакф.")), w')
        else (Response result, w')
    end.

End Waqf.

End Routers.

(** ** Further concrete objects *)

Module MoreExamples.

Import Ledger MainApp Caching Examples.

(** A stand-in for the Redis server: the entries, and a count of the
    runs of the decorated coroutine. *)
Definition Store : Type := (gmap string string * nat)%type.

Definition store_get (k : string) : M Store (option string) :=
  fun w => (Ret (w.1 !! k), w).

Definition store_setex (k : string) (expiration : Z) (v : string) : M Store unit :=
  fun w => (Ret tt, (<[k := v]> w.1, w.2)).

Definition counting (r : Res PyObj)
    : Owner -> list Arg -> list (string * Arg) -> M Store PyObj :=
  fun _ _ _ w => (r, (w.1, S w.2)).

Definition show_arg (a : Arg) : string :=
  match a with
  | ArgVal (VStr s) => s
  | ArgVal (VInt _) => "n"
  | _ => "?"
  end.

Definition show_exc (e : PyExc) : string :=
  match e with
  | KeyError k => k
  | TypeError => "TypeError"
  | AttributeError => "AttributeError"
  | ValueError => "ValueError"
  | OverflowError => "OverflowError"
  | OtherError msg => msg
  end.

(** The JSON text of a value, as [json.dumps] writes it with its
    default separators.  Strings are quoted as they stand, which is the
    text [json] gives for printable ASCII without quotes or backslashes. *)
Fixpoint json_text (v : PyVal) : string :=
  match v with
  | VNone => "null"
  | VBool b => if b then "true" else "false"
  | VInt z => pretty z
  | VStr s => String (Ascii.ascii_of_nat 34) (s +:+ String (Ascii.ascii_of_nat 34) "")
  | VList l => "[" +:+ str_join ", " (List.map json_text l) +:+ "]"
  end.

(** A stand-in for [json.dumps]: a JSON-like value is written out, an
    object of any other class is rejected with [TypeError]. *)
Definition toy_dumps (o : PyObj) : Res string :=
  match o with
  | ObjJson v => Ret (json_text v)
  | ObjOther _ => Raise TypeError
  end.

(** A stand-in for [json.loads] that knows a few texts; [json] raises a
    subclass of [ValueError] on text it cannot decode. *)
Definition toy_loads (s : string) : Res PyVal :=
  if String.eqb s "7" then Ret (VInt 7)
  else if String.eqb s "null" then Ret VNone
  else if String.eqb s "true" then Ret (VBool true)
  else if String.eqb s "false" then Ret (VBool false)
  else if String.eqb s "[]" then Ret (VList [])
  else Raise ValueError.

Definition client : Owner := {| redis := RedisClient; has_logger := true |}.
Definition mute_client : Owner := {| redis := RedisClient; has_logger := false |}.

(** Environments with one faulty collaborator. *)
Definition with_commit_fault (env : Env) (e : PyExc) : Env :=
  {| Session_fault := Session_fault env; execute_first := execute_first env;
     commit_fault := Some e; rollback_fault := rollback_fault env;
     close_fault := close_fault env; randint := randint env;
     time_now := time_now env; now_year := now_year env;
     now_isoformat := now_isoformat env;
     generate_recommendations := generate_recommendations env |}.

Definition with_query_fault (env : Env) (e : PyExc) : Env :=
  {| Session_fault := Session_fault env; execute_first := Raise e;
     commit_fault := commit_fault env; rollback_fault := rollback_fault env;
     close_fault := close_fault env; randint := randint env;
     time_now := time_now env; now_year := now_year env;
     now_isoformat := now_isoformat env;
     generate_recommendations := generate_recommendations env |}.

Definition with_engine_fault (env : Env) (e : PyExc) : Env :=
  {| Session_fault := Session_fault env; execute_first := execute_first env;
     commit_fault := commit_fault env; rollback_fault := rollback_fault env;
     close_fault := close_fault env; randint := randint env;
     time_now := time_now env; now_year := now_year env;
     now_isoformat := now_isoformat env;
     generate_recommendations := fun _ _ _ => Raise e |}.

Definition with_close_fault (env : Env) (e : PyExc) : Env :=
  {| Session_fault := Session_fault env; execute_first := execute_first env;
     commit_fault := commit_fault env; rollback_fault := rollback_fault env;
     close_fault := Some e; randint := randint env;
     time_now := time_now env; now_year := now_year env;
     now_isoformat := now_isoformat env;
     generate_recommendations := generate_recommendations env |}.

(** A toy [urlparse]: a URL with "//" has a network location, any other
    non-empty text is a path, and "[" is malformed. *)
Definition toy_urlparse (url : string) : Res (string * string) :=
  if String.eqb url "[" then Raise ValueError
  else if String.prefix "http://" url
       then Ret (String.substring 7 (String.length url - 7) url, "")
       else Ret ("", url).

Definition rec_with (priority : string) (title : string) : Dict :=
  <["priority" := VStr priority]> {["title" := VStr title]}.

(** Twelve recommendations of mixed priority, one without a priority. *)
Definition twelve_recommendations : list Dict :=
  [ rec_with "low" "a"; rec_with "high" "b"; rec_with "medium" "c";
    rec_with "low" "d"; {["title" := VStr "e"]}; rec_with "high" "f";
    rec_with "urgent" "g"; rec_with "medium" "h"; rec_with "low" "i";
    rec_with "high" "j"; rec_with "low" "k"; rec_with "medium" "l" ].

(** A decorated coroutine on the stand-in server, with the toy codec. *)
Definition cached_with (self : Owner) (r : Res PyObj)
    : list Arg -> list (string * Arg) -> M Store PyObj :=
  redis_cache Store show_arg show_exc store_get store_setex toy_loads toy_dumps
    (fun _ => ret tt) (counting r) "get_waqf" 3600 self.

(** A registration with identity digest and constant formatting. *)
Definition register_with (welcome : MubarakUser -> Res PyVal) (env : Env)
    (user_data : Dict) : M World (bool * string * option Registration) :=
  register_user example_value (fun s => s) (fun _ => "v") show_exc ascii_lower
    welcome (app_with donate_handler) env user_data.

(** Daily recommendations: one module answers, one is down, the others
    have nothing to say. *)
Definition toy_daily (t : ModuleType) (_ : Module) (_ : string) (_ : PyVal)
    : Res (list PyVal) :=
  match t with
  | FARD_AI => Ret [VStr "pray"]
  | BAITUL_HIKMA => Raise (OtherError "down")
  | CAREER_UMMA => Ret [VStr "apply"; VStr "learn"]
  | _ => Ret []
  end.

End MoreExamples.

(** * Properties *)

Import Ledger MainApp.

(** ** caching.py *)

Section CachingFacts.

Import Caching.

Variable W : Type.
Variable py_str : Arg -> string.
Variable exc_str : PyExc -> string.
Variable redis_get : string -> M W (option string).
Variable redis_setex : string -> Z -> string -> M W unit.
Variable json_loads : string -> Res PyVal.
Variable json_dumps : PyObj -> Res string.
Variable logger_warning : string -> M W unit.
Variable func : Owner -> list Arg -> list (string * Arg) -> M W PyObj.
Variable func_name : string.

(** C8: when the owner has no [redis] attribute, or it is [None], the
    wrapped coroutine is the decorated one: same value, same exception,
    same effect on the world, for every argument list. *)
Theorem redis_cache_without_client (expiration : Z) (self : Owner)
    (args : list Arg) (kwargs : list (string * Arg)) :
  redis self = RedisAbsent \/ redis self = RedisNone ->
  redis_cache W py_str exc_str redis_get redis_setex json_loads json_dumps
              logger_warning func func_name expiration self args kwargs
  = func self args kwargs.
Proof.
  intros [H | H]; unfold redis_cache, wrapper; rewrite H; reflexivity.
Qed.

End CachingFacts.

Lemma redis_cache_without_client_witness :
  let self := {| Caching.redis := Caching.RedisNone; Caching.has_logger := false |} in
  let func := fun (_ : Caching.Owner) (_ : list Caching.Arg)
                  (_ : list (string * Caching.Arg)) (n : nat) =>
                (Ret (Caching.ObjJson (VInt 7)), S n) in
  Caching.redis_cache nat (fun _ => "x") (fun _ => "e") (fun _ => ret (Some "[1]"))
    (fun _ _ _ => ret tt) (fun _ => Ret VNone) (fun _ => Ret "null")
    (fun _ => ret tt) func "get_waqf" 3600 self [] [] 0%nat
  = (Ret (Caching.ObjJson (VInt 7)), 1%nat).
Proof.
  intros self func.
  rewrite (redis_cache_without_client nat (fun _ => "x") (fun _ => "e")
             (fun _ => ret (Some "[1]"))
             (fun _ _ _ => ret tt) (fun _ => Ret VNone) (fun _ => Ret "null")
             (fun _ => ret tt) func "get_waqf" 3600 self [] []).
  - reflexivity.
  - right. reflexivity.
Defined.

(** ** The ledger *)

Section LedgerFacts.

Variable hash : Block -> string.
Variable genesis : Block.

Lemma run_snoc (ops : list Op) (op : Op) :
  run hash genesis (ops ++ [op]) = apply_op hash genesis (run hash genesis ops) op.
Proof. unfold run. apply fold_left_app. Qed.

Lemma chain_apply_op (l : BlockchainLedger) (op : Op) :
  chain (apply_op hash genesis l op) =
  match op with
  | OpAddTransaction _ => chain l
  | OpCreateBlock p m t =>
      chain l ++ [{| index := length (chain l); timestamp := t;
                     transactions := pending_transactions l; proof := p;
                     previous_hash := hash (last_block genesis l); miner := m |}]
  end.
Proof. destruct op; reflexivity. Qed.

(** Appending a block that stores the hash of the last block keeps the
    chain linked. *)
Lemma linked_snoc (c : list Block) (b0 b : Block) :
  linked hash c -> last c = Some b0 -> previous_hash b = hash b0 ->
  linked hash (c ++ [b]).
Proof.
  intros Hl Hlast Hb i b1 b2 H1 H2.
  destruct (decide (S i < length c)%nat) as [Hlt | Hge].
  - rewrite lookup_app_l in H1 by lia.
    rewrite lookup_app_l in H2 by lia.
    eauto.
  - assert (Hi : S i = length c).
    { apply lookup_lt_Some in H2. rewrite length_app in H2. simpl in H2. lia. }
    rewrite lookup_app_l in H1 by lia.
    rewrite lookup_app_r in H2 by lia.
    replace (S i - length c)%nat with 0%nat in H2 by lia.
    simpl in H2. injection H2 as <-.
    rewrite last_lookup in Hlast.
    replace (Nat.pred (length c)) with i in Hlast by lia.
    congruence.
Qed.

Lemma run_chain_nonempty (ops : list Op) :
  exists b, last (chain (run hash genesis ops)) = Some b.
Proof.
  induction ops as [| op ops IH] using rev_ind.
  - exists genesis. reflexivity.
  - rewrite run_snoc, chain_apply_op. destruct op; [exact IH |].
    eexists. apply last_snoc.
Qed.

Lemma seals_snoc (ops : list Op) (op : Op) :
  seals (ops ++ [op]) = (seals ops + if is_seal op then 1 else 0)%nat.
Proof.
  unfold seals. rewrite filter_app, length_app. f_equal.
  destruct op; reflexivity.
Qed.

(** C5: a seal of a ledger whose pool is [P] appends one block, that
    block's transaction list is [P], and the pool is empty afterwards. *)
Theorem create_block_moves_pending (proof : Z) (miner : string) (now : Z)
    (l : BlockchainLedger) :
  exists b,
    chain (create_block hash genesis proof miner now l) = chain l ++ [b] /\
    transactions b = pending_transactions l /\
    pending_transactions (create_block hash genesis proof miner now l) = [].
Proof. eexists. repeat split. Qed.

(** C6: in every ledger reached from a fresh one by adding transactions
    and sealing, each block after the first stores the hash of the block
    before it, and a run with N seals has N+1 blocks. *)
Theorem reachable_chain_linked_and_counted (ops : list Op) :
  linked hash (chain (run hash genesis ops)) /\
  length (chain (run hash genesis ops)) = S (seals ops).
Proof.
  induction ops as [| op ops [IHl IHn]] using rev_ind.
  - split; [| reflexivity].
    intros i b1 b2 H1 H2. destruct i; discriminate.
  - rewrite run_snoc, chain_apply_op, seals_snoc.
    destruct op as [tx | p m t]; simpl.
    + split; [exact IHl | lia].
    + destruct (run_chain_nonempty ops) as [b0 Hb0]. split.
      * apply linked_snoc with b0; [exact IHl | exact Hb0 |].
        simpl. unfold last_block. rewrite Hb0. reflexivity.
      * rewrite length_app. simpl. lia.
Qed.

End LedgerFacts.

(** The spec's example: two pending transactions, one seal. *)
Example create_block_example :
  let l := create_block Examples.example_hash Examples.example_genesis 7 "node0" 10
             (Examples.ledger_with [Examples.tx 5; Examples.tx 7]) in
  map transactions (chain l) = [[]; [Examples.tx 5; Examples.tx 7]] /\
  pending_transactions l = [].
Proof. split; reflexivity. Qed.

(** ** The dispatcher *)

(** Unfold the monad and the session operations of a run. *)
Ltac run_m :=
  unfold get_db_session, try_except, try_except_when, try_finally,
    session_open, session_execute, session_add, session_commit,
    session_rollback, session_close, log_call, fault, on_ledger,
    bind, ret, raise, lift, modify_state, get_state in *;
  simpl in *.

(** Use the equations between a run and its outcome and final state. *)
Ltac split_runs :=
  repeat match goal with
         | H : (_, _) = (_, _) |- _ =>
             apply pair_equal_spec in H; destruct H as [? ?]; subst
         | H : Ret _ = Raise _ |- _ => discriminate H
         | H : Raise _ = Ret _ |- _ => discriminate H
         end.

(** A call that differs from every member of an explicit list. *)
Ltac no_such_call :=
  rewrite list_elem_of_In; simpl; intuition discriminate.

Section DispatcherFacts.

Variable hash : Block -> string.
Variable genesis : Block.
Variable ModuleType_value : ModuleType -> string.

#[local] Abbreviation process_request := (process_request hash genesis ModuleType_value).
#[local] Abbreviation resolve_module_type := (resolve_module_type ModuleType_value).

(** Once the handler has returned, the only call still made on the
    session besides the commit or rollback is the final close. *)
Lemma process_request_log_after_handler (self : MubarakAI) (env : Env)
    (user_id : string) (request : Dict) (w : World)
    (module_type : ModuleType) (module : Module) (handler : Handler)
    (user_db : PyVal) (result : Dict) (l1 : BlockchainLedger) :
  resolve_module_type (dict_get request "module") = Ret module_type ->
  modules_lookup (modules self) module_type = Some module ->
  mod_process_request module = Some handler ->
  Session_fault env = None ->
  execute_first env = Ret user_db ->
  handler user_id (injected user_db request) (main_ledger w) = (Ret result, l1) ->
  session_log (process_request self env user_id request w).2 =
  session_log w ++
    [SOpen; SExecute;
     if truthy (dict_get result "success") then SCommit else SRollback;
     SClose].
Proof.
  intros Hres Hlook Hproc Hsess Hexec Hh.
  unfold MainApp.process_request, injected in *.
  run_m. rewrite Hres, Hlook, Hproc, Hsess. simpl.
  rewrite Hexec. simpl. rewrite Hh. simpl.
  unfold seal_on_threshold, self_logger_info. run_m.
  repeat (case_match; simpl in *; simplify_eq);
    rewrite <- ?app_assoc; reflexivity.
Qed.

(** C3: when the handler returns a result whose success flag is true,
    the calls made on the request's session contain exactly one commit
    and no rollback; when the flag is not true, exactly one rollback and
    no commit. *)
Theorem process_request_commit_or_rollback (self : MubarakAI) (env : Env)
    (user_id : string) (request : Dict) (w : World)
    (module_type : ModuleType) (module : Module) (handler : Handler)
    (user_db : PyVal) (result : Dict) (l1 : BlockchainLedger) :
  resolve_module_type (dict_get request "module") = Ret module_type ->
  modules_lookup (modules self) module_type = Some module ->
  mod_process_request module = Some handler ->
  Session_fault env = None ->
  execute_first env = Ret user_db ->
  handler user_id (injected user_db request) (main_ledger w) = (Ret result, l1) ->
  exists made : list SessionCall,
    session_log (process_request self env user_id request w).2 = session_log w ++ made /\
    (truthy (dict_get result "success") = true ->
       calls SCommit made = 1%nat /\ calls SRollback made = 0%nat) /\
    (truthy (dict_get result "success") = false ->
       calls SRollback made = 1%nat /\ calls SCommit made = 0%nat).
Proof.
  intros Hres Hlook Hproc Hsess Hexec Hh.
  eexists. split.
  - eapply process_request_log_after_handler; eassumption.
  - split; intros ->; split; reflexivity.
Qed.

(** C7: on every path of [process_request], either no session was
    opened, or the calls made on the session start with its creation
    and end with its close, which is made exactly once. *)
Theorem process_request_closes_session (self : MubarakAI) (env : Env)
    (user_id : string) (request : Dict) (w : World) :
  session_log (process_request self env user_id request w).2 = session_log w \/
  exists inner : list SessionCall,
    session_log (process_request self env user_id request w).2 =
      session_log w ++ SOpen :: inner ++ [SClose] /\
    (SClose ∉ inner) /\ (SOpen ∉ inner).
Proof.
  unfold MainApp.process_request, seal_on_threshold, self_logger_info.
  run_m.
  repeat (case_match; simpl in *; split_runs); rewrite <- ?app_assoc; simpl;
    first
      [ left; reflexivity
      | right; eexists [_; _]; split; [reflexivity | split; no_such_call]
      | right; eexists [_]; split; [reflexivity | split; no_such_call]
      | right; eexists []; split; [reflexivity | split; no_such_call] ].
Qed.

(** C1, the tag is no value of [ModuleType]: [ModuleType(module_name)]
    raises [ValueError] before the registry is consulted; the exception
    reaches the caller and the world is untouched (no session, hence no
    commit). *)
Theorem process_request_unknown_tag_raises (self : MubarakAI) (env : Env)
    (user_id : string) (request : Dict) (w : World) (tag : string) :
  dict_get request "module" = VStr tag ->
  tag <> "" ->
  (forall m, ModuleType_value m <> tag) ->
  process_request self env user_id request w = (Raise ValueError, w).
Proof.
  intros Hmod Hne Hval.
  unfold MainApp.process_request, MainApp.resolve_module_type, ModuleType_call.
  rewrite Hmod. simpl.
  assert (Hs : String.eqb tag "" = false) by (apply String.eqb_neq; exact Hne).
  rewrite Hs. simpl.
  assert (Hf : forall m, String.eqb (ModuleType_value m) tag = false)
    by (intro m; apply String.eqb_neq, Hval).
  rewrite !Hf. reflexivity.
Qed.

(** C2, on an object as [__init__] leaves it: when the pool has reached
    the threshold after the handler returned, the lookup of
    [self.logger] raises [AttributeError] before [create_block] is
    called; the request ends with the internal-error result and the
    ledger is the one the handler left, no block sealed. *)
Theorem process_request_threshold_no_seal (self : MubarakAI) (env : Env)
    (user_id : string) (request : Dict) (w : World)
    (module_type : ModuleType) (module : Module) (handler : Handler)
    (user_db : PyVal) (result : Dict) (l1 : BlockchainLedger) :
  logger self = None ->
  resolve_module_type (dict_get request "module") = Ret module_type ->
  modules_lookup (modules self) module_type = Some module ->
  mod_process_request module = Some handler ->
  Session_fault env = None ->
  execute_first env = Ret user_db ->
  commit_fault env = None ->
  rollback_fault env = None ->
  close_fault env = None ->
  handler user_id (injected user_db request) (main_ledger w) = (Ret result, l1) ->
  BLOCK_CREATION_THRESHOLD self <= Z.of_nat (length (pending_transactions l1)) ->
  process_request self env user_id request w =
  (Ret internal_error,
   {| session_log := session_log w ++
        [SOpen; SExecute;
         if truthy (dict_get result "success") then SCommit else SRollback;
         SClose];
      main_ledger := l1;
      sessions := sessions w |}).
Proof.
  intros Hlog Hres Hlook Hproc Hsess Hexec Hcommit Hroll Hclose Hh Hthr.
  unfold MainApp.process_request, seal_on_threshold, self_logger_info.
  run_m. rewrite Hres, Hlook, Hproc, Hsess. simpl.
  rewrite Hexec. simpl. rewrite Hh. simpl.
  apply Z.leb_le in Hthr.
  destruct (truthy (dict_get result "success")); run_m;
    rewrite ?Hcommit, ?Hroll; simpl; rewrite Hthr, Hlog; simpl;
    rewrite Hclose; simpl; rewrite <- !app_assoc; reflexivity.
Qed.

(** C4, the handler raises: the exception is caught inside the
    [async with] block, so the manager's own handler never runs; the
    caller receives the internal-error result, and the only call made
    on the session after the query is its close, no rollback. *)
Theorem process_request_fault_no_rollback (self : MubarakAI) (env : Env)
    (user_id : string) (request : Dict) (w : World)
    (module_type : ModuleType) (module : Module) (handler : Handler)
    (user_db : PyVal) (e : PyExc) (l1 : BlockchainLedger) :
  resolve_module_type (dict_get request "module") = Ret module_type ->
  modules_lookup (modules self) module_type = Some module ->
  mod_process_request module = Some handler ->
  Session_fault env = None ->
  execute_first env = Ret user_db ->
  close_fault env = None ->
  handler user_id (injected user_db request) (main_ledger w) = (Raise e, l1) ->
  process_request self env user_id request w =
  (Ret internal_error,
   {| session_log := session_log w ++ [SOpen; SExecute; SClose];
      main_ledger := l1;
      sessions := sessions w |}).
Proof.
  intros Hres Hlook Hproc Hsess Hexec Hclose Hh.
  unfold MainApp.process_request.
  run_m. rewrite Hres, Hlook, Hproc, Hsess. simpl.
  rewrite Hexec. simpl. rewrite Hh. simpl.
  rewrite Hclose. simpl. rewrite <- !app_assoc. reflexivity.
Qed.

(** A tag that names a member of [ModuleType] missing from the registry
    reaches the guard of line 212: the not-found result is returned and
    the world is untouched. *)
Lemma process_request_unregistered_member (self : MubarakAI) (env : Env)
    (user_id : string) (request : Dict) (w : World) (module_type : ModuleType) :
  resolve_module_type (dict_get request "module") = Ret module_type ->
  modules_lookup (modules self) module_type = None ->
  process_request self env user_id request w =
  (Ret {["error" := VStr "Модуль не найден"]}, w).
Proof.
  intros Hres Hlook. unfold MainApp.process_request. run_m.
  rewrite Hres, Hlook. reflexivity.
Qed.

(** With a [logger] attribute the threshold trigger seals the pool. *)
Lemma seal_on_threshold_with_logger (self : MubarakAI) (env : Env)
    (l : BlockchainLedger) (u : unit) :
  logger self = Some u ->
  BLOCK_CREATION_THRESHOLD self <= Z.of_nat (length (pending_transactions l)) ->
  seal_on_threshold hash genesis self env l =
  (Ret tt, create_block hash genesis (randint env) (node_identifier self) (time_now env) l).
Proof.
  intros Hlog Hthr. apply Z.leb_le in Hthr.
  unfold seal_on_threshold, self_logger_info. run_m.
  rewrite Hthr, Hlog. reflexivity.
Qed.

(** Below the threshold the trigger does nothing. *)
Lemma seal_on_threshold_below (self : MubarakAI) (env : Env) (l : BlockchainLedger) :
  Z.of_nat (length (pending_transactions l)) < BLOCK_CREATION_THRESHOLD self ->
  seal_on_threshold hash genesis self env l = (Ret tt, l).
Proof.
  intros Hthr. apply Z.leb_gt in Hthr.
  unfold seal_on_threshold. run_m. rewrite Hthr. reflexivity.
Qed.

(** X1: on an object as [__init__] leaves it (no [logger] attribute)
    the periodic task raises [AttributeError] at its first wake-up,
    whether or not transactions are pending: it never seals a block,
    and pool and chain are untouched. *)
Lemma periodic_task_without_logger (self : MubarakAI) (env : Env)
    (rest : list Env) (l : BlockchainLedger) :
  logger self = None ->
  _periodic_block_creation_task hash genesis self (env :: rest) l =
  (Raise AttributeError, l).
Proof.
  intros Hlog. simpl. unfold periodic_iteration, self_logger_info. run_m.
  rewrite Hlog. destruct (pending_transactions l); reflexivity.
Qed.

End DispatcherFacts.

Import Examples.

Lemma process_request_commit_or_rollback_witness :
  exists made : list SessionCall,
    session_log (process_request example_hash example_genesis example_value
                   (app_with donate_handler) quiet_env "u1" waqf_request
                   (world_with [])).2 = session_log (world_with []) ++ made /\
    (truthy (dict_get (<["success" := VBool true]> ∅) "success") = true ->
       calls SCommit made = 1%nat /\ calls SRollback made = 0%nat) /\
    (truthy (dict_get (<["success" := VBool true]> ∅) "success") = false ->
       calls SRollback made = 1%nat /\ calls SCommit made = 0%nat).
Proof.
  apply (process_request_commit_or_rollback example_hash example_genesis example_value
           (app_with donate_handler) quiet_env "u1" waqf_request (world_with [])
           UMMAH_WAQF (module_with donate_handler) donate_handler (VStr "ru")
           (<["success" := VBool true]> ∅) (ledger_with [tx 100]));
    vm_compute; reflexivity.
Defined.

Lemma process_request_unknown_tag_raises_witness :
  process_request example_hash example_genesis example_value
    (app_with donate_handler) quiet_env "u1" unknown_request (world_with [])
  = (Raise ValueError, world_with []).
Proof.
  apply (process_request_unknown_tag_raises example_hash example_genesis example_value
           (app_with donate_handler) quiet_env "u1" unknown_request (world_with [])
           "unknown_tag").
  - vm_compute. reflexivity.
  - discriminate.
  - intros []; discriminate.
Defined.

Lemma process_request_threshold_no_seal_witness :
  process_request example_hash example_genesis example_value
    (app_with donate_handler) quiet_env "u1" waqf_request
    (world_with [tx 1; tx 2; tx 3; tx 4])
  = (Ret internal_error,
     {| session_log := [SOpen; SExecute; SCommit; SClose];
        main_ledger := ledger_with [tx 1; tx 2; tx 3; tx 4; tx 100];
        sessions := ∅ |}).
Proof.
  etrans.
  - apply (process_request_threshold_no_seal example_hash example_genesis example_value
             (app_with donate_handler) quiet_env "u1" waqf_request
             (world_with [tx 1; tx 2; tx 3; tx 4])
             UMMAH_WAQF (module_with donate_handler) donate_handler (VStr "ru")
             (<["success" := VBool true]> ∅)
             (ledger_with [tx 1; tx 2; tx 3; tx 4; tx 100]));
      vm_compute; congruence.
  - vm_compute. reflexivity.
Defined.

Lemma process_request_fault_no_rollback_witness :
  process_request example_hash example_genesis example_value
    (app_with faulting_handler) quiet_env "u1" waqf_request (world_with [])
  = (Ret internal_error,
     {| session_log := [SOpen; SExecute; SClose];
        main_ledger := ledger_with [];
        sessions := ∅ |}).
Proof.
  etrans.
  - apply (process_request_fault_no_rollback example_hash example_genesis example_value
             (app_with faulting_handler) quiet_env "u1" waqf_request (world_with [])
             UMMAH_WAQF (module_with faulting_handler) faulting_handler (VStr "ru")
             (OtherError "handler fault") (ledger_with []));
      vm_compute; reflexivity.
  - vm_compute. reflexivity.
Defined.

(** ** The two sealing triggers *)


Section TriggerFacts.

Variable hash : Block -> string.
Variable genesis : Block.

#[local] Abbreviation sched_step := (sched_step hash genesis).
#[local] Abbreviation run_schedule := (run_schedule hash genesis).







(** Once the periodic task has ended, its wake-ups change nothing. *)
Lemma dead_timer_idle (self : MubarakAI) (wakeups : list Env) (l : BlockchainLedger) :
  fold_left (sched_step self) (map EvTimer wakeups) (l, false) = (l, false).
Proof. induction wakeups as [| env rest IH]; [reflexivity | exact IH]. Qed.

(** The timer events of a schedule are the turns of the loop of
    [_periodic_block_creation_task]. *)
Lemma periodic_task_as_schedule (self : MubarakAI) (wakeups : list Env)
    (l : BlockchainLedger) :
  (fold_left (sched_step self) (map EvTimer wakeups) (l, true)).1 =
  (_periodic_block_creation_task hash genesis self wakeups l).2.
Proof.
  revert l. induction wakeups as [| env rest IH]; intros l; [reflexivity |].
  cbn [map fold_left MainApp.sched_step snd fst MainApp._periodic_block_creation_task].
  unfold bind at 1.
  destruct (periodic_iteration hash genesis self env l) as [[u | e] l'].
  - apply IH.
  - rewrite dead_timer_idle. reflexivity.
Qed.


End TriggerFacts.

(** A schedule on an object with a logger: the timer seals two
    transactions, the threshold trigger the next five, and the last one
    stays pending. *)
Example busy_schedule_run :
  let l := (run_schedule example_hash example_genesis
              (logging_app donate_handler) busy_schedule).1 in
  map transactions (chain l) =
    [[]; [tx 1; tx 2]; [tx 3; tx 4; tx 5; tx 6; tx 7]] /\
  pending_transactions l = [tx 8].
Proof. split; reflexivity. Qed.


(** ** Registration *)

Lemma append_cons (c : Ascii.ascii) (p t : string) :
  String c p +:+ t = String c (p +:+ t).
Proof. reflexivity. Qed.

Lemma prefix_spec (p s : string) :
  String.prefix p s = true <-> exists t, s = p +:+ t.
Proof.
  revert s. induction p as [| c p IH]; intros [| d s]; simpl.
  - split; [intros _; exists ""; reflexivity | reflexivity].
  - split; [intros _; exists (String d s); reflexivity | reflexivity].
  - split; [discriminate | intros [t Ht]; discriminate].
  - destruct (Ascii.ascii_dec c d) as [-> | Hne].
    + rewrite IH. split; intros [t Ht]; exists t;
        rewrite append_cons in *; congruence.
    + split; [discriminate |].
      intros [t Ht]. rewrite append_cons in Ht. congruence.
Qed.

Lemma str_contains_unfold (needle hay : string) :
  str_contains needle hay =
  String.prefix needle hay ||
  match hay with
  | EmptyString => false
  | String _ rest => str_contains needle rest
  end.
Proof. destruct hay; reflexivity. Qed.

(** [str_contains] decides the occurrence of [needle] as a substring. *)
Lemma str_contains_spec (needle hay : string) :
  str_contains needle hay = true <->
  exists pre post, hay = pre +:+ needle +:+ post.
Proof.
  induction hay as [| c hay IH]; rewrite str_contains_unfold.
  - rewrite orb_false_r, prefix_spec. split.
    + intros [t Ht]. exists "", t. exact Ht.
    + intros (pre & post & H). destruct pre; [exists post; exact H | discriminate].
  - rewrite orb_true_iff, prefix_spec, IH. split.
    + intros [[t Ht] | (pre & post & H)].
      * exists "", t. exact Ht.
      * exists (String c pre), post. rewrite append_cons. congruence.
    + intros (pre & post & H). destruct pre as [| d pre].
      * left. exists post. exact H.
      * right. exists pre, post. rewrite append_cons in H. congruence.
Qed.

Section RegistrationFacts.

Variable ModuleType_value : ModuleType -> string.
Variable sha256_hexdigest : string -> string.
Variable py_str : PyVal -> string.
Variable exc_str : PyExc -> string.
Variable str_lower : string -> string.
Variable _generate_welcome_package : MubarakUser -> Res PyVal.

#[local] Abbreviation _detect_initial_roles := (_detect_initial_roles str_lower).
#[local] Abbreviation register_user :=
  (register_user ModuleType_value sha256_hexdigest py_str exc_str str_lower
     _generate_welcome_package).

(** The role list [_detect_initial_roles] returns starts with [MUSLIM]
    and holds [ADMIN] exactly when the e-mail string contains "admin". *)
Lemma _detect_initial_roles_spec {S : Type} (env : Env) (user_data : Dict)
    (s s' : S) (e : string) (rs : list UserRole) :
  user_data !! "email" = Some (VStr e) ->
  _detect_initial_roles env user_data s = (Ret rs, s') ->
  MUSLIM ∈ rs /\ (ADMIN ∈ rs <-> str_contains "admin" e = true).
Proof.
  intros Hemail.
  unfold MainApp._detect_initial_roles, subscript, int_operand, str_in.
  rewrite Hemail. run_m.
  repeat (case_match; simpl in *; split_runs);
    intros Hrun; split_runs;
    try match goal with H : Ret _ = Ret _ |- _ => inversion H; clear H; subst end;
    rewrite !list_elem_of_In; simpl; intuition (discriminate || congruence).
Qed.

(** A successful registration carries the roles that
    [_detect_initial_roles] computed for the supplied data. *)
Lemma register_user_roles (self : MubarakAI) (env : Env) (user_data : Dict)
    (w : World) (rs : list UserRole) :
  registered_roles (register_user self env user_data w).1 = Some rs ->
  exists s s' : World, _detect_initial_roles env user_data s = (Ret rs, s').
Proof.
  unfold MainApp.register_user, subscript. run_m.
  repeat (case_match; simpl in *; split_runs); try discriminate.
  intros [= ->]. eauto.
Qed.

(** C10: the user a successful [register_user] creates has [MUSLIM]
    among its roles, and has [ADMIN] among them exactly when "admin"
    occurs as a substring of the supplied e-mail address. *)
Theorem register_user_initial_roles (self : MubarakAI) (env : Env)
    (user_data : Dict) (w : World) (address : string) (rs : list UserRole) :
  user_data !! "email" = Some (VStr address) ->
  registered_roles (register_user self env user_data w).1 = Some rs ->
  MUSLIM ∈ rs /\
  (ADMIN ∈ rs <-> exists pre post, address = pre +:+ "admin" +:+ post).
Proof.
  intros Hemail Hreg.
  destruct (register_user_roles self env user_data w rs Hreg) as (s & s' & Hroles).
  rewrite <- str_contains_spec.
  exact (_detect_initial_roles_spec env user_data s s' address rs Hemail Hroles).
Qed.

End RegistrationFacts.

Lemma register_user_initial_roles_witness :
  MUSLIM ∈ [MUSLIM; STUDENT; ADMIN] /\
  (ADMIN ∈ [MUSLIM; STUDENT; ADMIN] <->
   exists pre post, "admin@example.com" = pre +:+ "admin" +:+ post).
Proof.
  apply (register_user_initial_roles example_value (fun s => s) (fun _ => "v")
           (fun _ => "error") ascii_lower (fun _ => Ret VNone)
           (app_with donate_handler) quiet_env admin_data (world_with [])
           "admin@example.com" [MUSLIM; STUDENT; ADMIN]);
    vm_compute; reflexivity.
Defined.

(** On an object as [__init__] leaves it, the same schedule seals
    nothing: the first wake-up ends the periodic task and the threshold
    trigger stops at the logger lookup. *)
Example busy_schedule_without_logger :
  let st := run_schedule example_hash example_genesis
              (app_with donate_handler) busy_schedule in
  chain st.1 = [example_genesis] /\
  pending_transactions st.1 = map tx [1; 2; 3; 4; 5; 6; 7; 8] /\
  st.2 = false.
Proof. repeat split. Qed.

(** * Further properties *)

(** ** caching.py: hits, misses and faults *)

Section CachingBehaviour.

Import Caching.

Variable W : Type.
Variable py_str : Arg -> string.
Variable exc_str : PyExc -> string.
Variable redis_get : string -> M W (option string).
Variable redis_setex : string -> Z -> string -> M W unit.
Variable json_loads : string -> Res PyVal.
Variable json_dumps : PyObj -> Res string.
Variable logger_warning : string -> M W unit.
Variable func : Owner -> list Arg -> list (string * Arg) -> M W PyObj.
Variable func_name : string.

#[local] Abbreviation cached :=
  (redis_cache W py_str exc_str redis_get redis_setex json_loads json_dumps
     logger_warning func func_name).
#[local] Abbreviation key_of := (_generate_cache_key py_str func_name).

(** Unfold the wrapper on an owner with a client and keyword arguments
    that bind. *)
Ltac with_client Hr Hkw :=
  unfold redis_cache, wrapper, _generate_cache_key_call;
  rewrite Hr, (bool_decide_eq_false_2 _ Hkw);
  unfold bind, lift, try_except_when, self_logger_warning, raise, ret.

(** With a client, a keyword argument named [func] stops the wrapper at
    line 30 with [TypeError]: Redis is not consulted and the decorated
    coroutine is not run. *)
Lemma redis_cache_func_keyword (expiration : Z) (self : Owner) (args : list Arg)
    (kwargs : list (string * Arg)) (w : W) :
  redis self = RedisClient ->
  "func" ∈ kwargs.*1 ->
  cached expiration self args kwargs w = (Raise TypeError, w).
Proof.
  intros Hr Hkw. unfold redis_cache, wrapper, _generate_cache_key_call.
  rewrite Hr, (bool_decide_eq_true_2 _ Hkw). reflexivity.
Qed.

(** On a hit (a non-empty string under the key) the decorated
    coroutine is not run: the outcome is the decoded entry, or the
    decoder's exception, and the world is the one the lookup left. *)
Lemma redis_cache_hit (expiration : Z) (self : Owner) (args : list Arg)
    (kwargs : list (string * Arg)) (w w' : W) (entry : string) :
  redis self = RedisClient ->
  "func" ∉ kwargs.*1 ->
  entry <> "" ->
  redis_get (key_of args kwargs) w = (Ret (Some entry), w') ->
  cached expiration self args kwargs w =
  (match json_loads entry with Ret v => Ret (ObjJson v) | Raise e => Raise e end, w').
Proof.
  intros Hr Hkw Hne Hget. with_client Hr Hkw. rewrite Hget.
  destruct entry; [contradiction |]. destruct (json_loads _); reflexivity.
Qed.

(** On a miss (no entry, or an empty one) with a result that
    serialises, the result of the decorated coroutine is returned and
    its JSON text is stored under the key with the given expiry. *)
Lemma redis_cache_miss_stores (expiration : Z) (self : Owner) (args : list Arg)
    (kwargs : list (string * Arg)) (w w0 w1 w2 : W) (entry : option string)
    (result : PyObj) (text : string) :
  redis self = RedisClient ->
  "func" ∉ kwargs.*1 ->
  entry = None \/ entry = Some "" ->
  redis_get (key_of args kwargs) w = (Ret entry, w0) ->
  func self args kwargs w0 = (Ret result, w1) ->
  json_dumps result = Ret text ->
  redis_setex (key_of args kwargs) expiration text w1 = (Ret tt, w2) ->
  cached expiration self args kwargs w = (Ret result, w2).
Proof.
  intros Hr Hkw Hentry Hget Hfunc Hdump Hset. with_client Hr Hkw. rewrite Hget.
  destruct Hentry as [-> | ->]; rewrite Hfunc, Hdump, Hset; reflexivity.
Qed.

(** X2: when the decorated coroutine raises on a miss, the wrapper
    raises the same exception and nothing is written to the cache: the
    world is the one the coroutine left.  The keyword arguments are
    those of a call that reaches Redis: none is named [func]. *)
Theorem redis_cache_miss_raises (expiration : Z) (self : Owner) (args : list Arg)
    (kwargs : list (string * Arg)) (w w0 w1 : W) (entry : option string)
    (e : PyExc) :
  redis self = RedisClient ->
  "func" ∉ kwargs.*1 ->
  entry = None \/ entry = Some "" ->
  redis_get (key_of args kwargs) w = (Ret entry, w0) ->
  func self args kwargs w0 = (Raise e, w1) ->
  cached expiration self args kwargs w = (Raise e, w1).
Proof.
  intros Hr Hkw Hentry Hget Hfunc. with_client Hr Hkw. rewrite Hget.
  destruct Hentry as [-> | ->]; rewrite Hfunc; reflexivity.
Qed.

(** X3: a result that [json.dumps] rejects with [TypeError] or
    [OverflowError] is still returned, uncached, when the owner has a
    logger; without a [logger] attribute the warning itself raises
    [AttributeError] and the result is lost.  No keyword argument is
    named [func]. *)
Theorem redis_cache_unserialisable (expiration : Z) (self : Owner) (args : list Arg)
    (kwargs : list (string * Arg)) (w w0 w1 : W) (entry : option string)
    (result : PyObj) (e : PyExc) :
  redis self = RedisClient ->
  "func" ∉ kwargs.*1 ->
  entry = None \/ entry = Some "" ->
  redis_get (key_of args kwargs) w = (Ret entry, w0) ->
  func self args kwargs w0 = (Ret result, w1) ->
  json_dumps result = Raise e ->
  e = TypeError \/ e = OverflowError ->
  (has_logger self = false ->
     cached expiration self args kwargs w = (Raise AttributeError, w1)) /\
  (has_logger self = true ->
     forall w2 : W,
       logger_warning ("Не удалось кэшировать результат для ключа " +:+
                       key_of args kwargs +:+ ": " +:+ exc_str e) w1 = (Ret tt, w2) ->
       cached expiration self args kwargs w = (Ret result, w2)).
Proof.
  intros Hr Hkw Hentry Hget Hfunc Hdump He. with_client Hr Hkw.
  rewrite Hget.
  assert (Hc : is_type_or_overflow e = true) by (destruct He as [-> | ->]; reflexivity).
  split; intros Hlog.
  - destruct Hentry as [-> | ->]; rewrite Hfunc, Hdump, Hc, Hlog; reflexivity.
  - intros w2 Hwarn.
    destruct Hentry as [-> | ->]; rewrite Hfunc, Hdump, Hc, Hlog, Hwarn; reflexivity.
Qed.

(** X4: memoisation.  If the server returns what was stored, a miss
    followed by a second call with the same arguments gives the result
    first, and then the decoded JSON text of that result (or the
    decoder's exception) without running the decorated coroutine again.
    No keyword argument is named [func]. *)
Theorem redis_cache_memoises (expiration : Z) (self : Owner) (args : list Arg)
    (kwargs : list (string * Arg)) (w w0 w1 w2 w3 : W)
    (result : PyObj) (text : string) :
  redis self = RedisClient ->
  "func" ∉ kwargs.*1 ->
  text <> "" ->
  redis_get (key_of args kwargs) w = (Ret None, w0) ->
  func self args kwargs w0 = (Ret result, w1) ->
  json_dumps result = Ret text ->
  redis_setex (key_of args kwargs) expiration text w1 = (Ret tt, w2) ->
  redis_get (key_of args kwargs) w2 = (Ret (Some text), w3) ->
  cached expiration self args kwargs w = (Ret result, w2) /\
  cached expiration self args kwargs w2 =
  (match json_loads text with Ret v => Ret (ObjJson v) | Raise e => Raise e end, w3).
Proof.
  intros Hr Hkw Hne Hget Hfunc Hdump Hset Hget2. split.
  - with_client Hr Hkw. rewrite Hget, Hfunc, Hdump, Hset. reflexivity.
  - with_client Hr Hkw. rewrite Hget2.
    destruct text; [contradiction |]. destruct (json_loads _); reflexivity.
Qed.

End CachingBehaviour.

(** ** caching.py: the key and the keyword arguments *)

Lemma string_leb_trans (a b c : string) :
  String.leb a b = true -> String.leb b c = true -> String.leb a c = true.
Proof.
  unfold String.leb. revert b c.
  induction a as [| x a IH]; intros [| y b] [| z c]; simpl; try congruence.
  unfold Ascii.compare.
  destruct (N.compare_spec (Ascii.N_of_ascii x) (Ascii.N_of_ascii y)) as [Hxy | Hxy | Hxy],
           (N.compare_spec (Ascii.N_of_ascii y) (Ascii.N_of_ascii z)) as [Hyz | Hyz | Hyz],
           (N.compare_spec (Ascii.N_of_ascii x) (Ascii.N_of_ascii z)) as [Hxz | Hxz | Hxz];
    try congruence; try lia; try apply IH.
Qed.

#[local] Instance item_le_transitive : Transitive Caching.item_le.
Proof. intros x y z. apply string_leb_trans. Qed.

#[local] Instance item_le_total : Total Caching.item_le.
Proof. intros x y. apply String.leb_total. Qed.

(** Items with distinct names are determined by their name. *)
Lemma item_by_name {A : Type} (l : list (string * A)) (x y : string * A) :
  NoDup (l.*1) -> x ∈ l -> y ∈ l -> x.1 = y.1 -> x = y.
Proof.
  induction l as [| z l IH]; intros Hnd Hx Hy Hxy; [inversion Hx |].
  simpl in Hnd. apply NoDup_cons in Hnd as [Hz Hnd].
  apply elem_of_cons in Hx as [-> | Hx], Hy as [-> | Hy]; auto.
  - exfalso. apply Hz. rewrite Hxy. apply list_elem_of_fmap. eauto.
  - exfalso. apply Hz. rewrite <- Hxy. apply list_elem_of_fmap. eauto.
Qed.

Lemma StronglySorted_filter {A : Type} (R : relation A) (P : A -> Prop)
    `{forall x, Decision (P x)} (l : list A) :
  StronglySorted R l -> StronglySorted R (filter P l).
Proof.
  induction 1 as [| x l Hl IH Hx]; [constructor |].
  rewrite filter_cons. destruct (decide (P x)); [| exact IH].
  constructor; [exact IH |].
  apply Forall_forall. intros y Hy. apply list_elem_of_filter in Hy as [_ Hy].
  rewrite Forall_forall in Hx. auto.
Qed.

(** Two argument lists with the same kept items give the same sorted,
    filtered item list. *)
Lemma sorted_items_filtered (P : string * Caching.Arg -> Prop)
    `{forall x, Decision (P x)} (l1 l2 : list (string * Caching.Arg)) :
  NoDup (l1.*1) ->
  filter P l1 ≡ₚ filter P l2 ->
  filter P (Caching.sorted_items l1) = filter P (Caching.sorted_items l2).
Proof.
  intros Hnd Hperm. unfold Caching.sorted_items.
  apply (StronglySorted_unique_strong Caching.item_le).
  - intros x1 x2 H1 H2 H12 H21.
    apply list_elem_of_filter in H1 as [HP1 H1].
    rewrite merge_sort_Permutation in H1.
    assert (H2' : x2 ∈ filter P l1).
    { rewrite Hperm. apply list_elem_of_filter in H2 as [HP2 H2].
      rewrite merge_sort_Permutation in H2. apply list_elem_of_filter. auto. }
    apply list_elem_of_filter in H2' as [_ H2'].
    apply (item_by_name l1); auto.
    apply String.leb_antisym; assumption.
  - apply StronglySorted_filter, StronglySorted_merge_sort; apply _.
  - apply StronglySorted_filter, StronglySorted_merge_sort; apply _.
  - rewrite !merge_sort_Permutation. exact Hperm.
Qed.

Section CacheKeyFacts.

Import Caching.

Variable py_str : Arg -> string.
Variable func_name : string.

#[local] Abbreviation key_of := (_generate_cache_key py_str func_name).

(** X5: the key does not depend on the order in which the keyword
    arguments are passed (their names being distinct, as in a call). *)
Theorem cache_key_kwargs_order (args : list Arg) (kwargs1 kwargs2 : list (string * Arg)) :
  NoDup (kwargs1.*1) ->
  kwargs1 ≡ₚ kwargs2 ->
  key_of args kwargs1 = key_of args kwargs2.
Proof.
  intros Hnd Hperm. unfold _generate_cache_key.
  rewrite (sorted_items_filtered _ kwargs1 kwargs2 Hnd); [reflexivity |].
  rewrite Hperm. reflexivity.
Qed.

(** X6: the request's session does not enter the key, whether it is
    passed by position or as the keyword argument [db_session]. *)
Theorem cache_key_ignores_sessions (args1 args2 : list Arg)
    (kwargs : list (string * Arg)) (session : Arg) :
  NoDup (kwargs.*1) ->
  key_of (args1 ++ ArgSession :: args2) (("db_session", session) :: kwargs)
  = key_of (args1 ++ args2) kwargs.
Proof.
  intros Hnd. unfold _generate_cache_key.
  rewrite (sorted_items_filtered _ kwargs (("db_session", session) :: kwargs) Hnd).
  - rewrite !filter_app, (filter_cons_False _ ArgSession); [reflexivity |].
    simpl. discriminate.
  - rewrite filter_cons_False; [reflexivity | simpl; auto].
Qed.

End CacheKeyFacts.

(** ** The dispatcher: faults and results *)

Lemma Ret_inj {A : Type} (a b : A) : Ret a = Ret b -> a = b.
Proof. congruence. Qed.

(** Identify the values of equal outcomes. *)
Ltac same_results :=
  repeat match goal with
         | H : Ret _ = Ret _ |- _ => apply Ret_inj in H; subst
         end.

Section DispatcherBehaviour.

Variable hash : Block -> string.
Variable genesis : Block.
Variable ModuleType_value : ModuleType -> string.

#[local] Abbreviation process_request := (process_request hash genesis ModuleType_value).
#[local] Abbreviation resolve_module_type := (resolve_module_type ModuleType_value).

(** X7: the only exceptions that leave [process_request] are the
    [ValueError] of the module lookup, a fault of [self.Session()], and
    a fault of the final [session.close()]; a fault of the query, of the
    handler, of commit or rollback, or of the recommendation engine
    never reaches the caller. *)
Theorem process_request_escapes (self : MubarakAI) (env : Env)
    (user_id : string) (request : Dict) (w w' : World) (e : PyExc) :
  process_request self env user_id request w = (Raise e, w') ->
  resolve_module_type (dict_get request "module") = Raise e \/
  Session_fault env = Some e \/
  close_fault env = Some e.
Proof.
  unfold MainApp.process_request, seal_on_threshold, self_logger_info.
  run_m.
  repeat (case_match; simpl in *; split_runs); intros Hrun; split_runs;
    try discriminate;
    first [left; congruence | right; left; congruence | right; right; congruence].
Qed.

(** X8: a returned response is one of the three fixed error results,
    or the result of the resolved module's handler with the key
    [additional_recommendations] set to the engine's answer; every
    other key of the handler's result is passed through unchanged. *)
Theorem process_request_response (self : MubarakAI) (env : Env)
    (user_id : string) (request : Dict) (w w' : World) (response : Dict) :
  process_request self env user_id request w = (Ret response, w') ->
  response = {["error" := VStr "Модуль не найден"]} \/
  (exists module_type,
     response = {["error" := VStr ("Module " +:+ ModuleType_value module_type +:+
                                   " does not have process_request method")]}) \/
  response = internal_error \/
  exists module_type module handler user_db result l1 recs,
    resolve_module_type (dict_get request "module") = Ret module_type /\
    modules_lookup (modules self) module_type = Some module /\
    mod_process_request module = Some handler /\
    execute_first env = Ret user_db /\
    handler user_id (injected user_db request) (main_ledger w) = (Ret result, l1) /\
    generate_recommendations env user_id (dict_get request "type") result = Ret recs /\
    response = <["additional_recommendations" := recs]> result /\
    forall k, k <> "additional_recommendations" -> response !! k = result !! k.
Proof.
  unfold MainApp.process_request, seal_on_threshold, self_logger_info.
  run_m.
  repeat (case_match; simpl in *; split_runs); intros Hrun; split_runs;
    try discriminate; same_results; eauto 6.
  all: right; right; right; eexists _, _, _, _, _, _, _;
    repeat (split; [solve [eauto] |]);
    intros k Hk; rewrite lookup_insert_ne by congruence; reflexivity.
Qed.

(** X9: when the recommendation engine raises after a successful
    commit, the caller receives the internal-error result although the
    session was committed; nothing is rolled back. *)
Theorem process_request_fault_after_commit (self : MubarakAI) (env : Env)
    (user_id : string) (request : Dict) (w : World)
    (module_type : ModuleType) (module : Module) (handler : Handler)
    (user_db : PyVal) (result : Dict) (l1 : BlockchainLedger) (e : PyExc) :
  resolve_module_type (dict_get request "module") = Ret module_type ->
  modules_lookup (modules self) module_type = Some module ->
  mod_process_request module = Some handler ->
  Session_fault env = None ->
  execute_first env = Ret user_db ->
  handler user_id (injected user_db request) (main_ledger w) = (Ret result, l1) ->
  truthy (dict_get result "success") = true ->
  commit_fault env = None ->
  Z.of_nat (length (pending_transactions l1)) < BLOCK_CREATION_THRESHOLD self ->
  generate_recommendations env user_id (dict_get request "type") result = Raise e ->
  close_fault env = None ->
  process_request self env user_id request w =
  (Ret internal_error,
   {| session_log := session_log w ++ [SOpen; SExecute; SCommit; SClose];
      main_ledger := l1;
      sessions := sessions w |}).
Proof.
  intros Hres Hlook Hproc Hsess Hexec Hh Hok Hcommit Hthr Hrec Hclose.
  apply Z.leb_gt in Hthr.
  unfold MainApp.process_request, seal_on_threshold.
  run_m. rewrite Hres, Hlook, Hproc, Hsess. simpl.
  rewrite Hexec. simpl. rewrite Hh. simpl. rewrite Hok. simpl.
  rewrite Hcommit. simpl. rewrite Hthr. simpl. rewrite Hrec. simpl.
  rewrite Hclose. simpl. rewrite <- !app_assoc. reflexivity.
Qed.

(** X10: when the commit itself raises, the caller receives the
    internal-error result; the session is closed without a rollback,
    the threshold test is skipped and the ledger stays as the handler
    left it. *)
Theorem process_request_commit_fault (self : MubarakAI) (env : Env)
    (user_id : string) (request : Dict) (w : World)
    (module_type : ModuleType) (module : Module) (handler : Handler)
    (user_db : PyVal) (result : Dict) (l1 : BlockchainLedger) (e : PyExc) :
  resolve_module_type (dict_get request "module") = Ret module_type ->
  modules_lookup (modules self) module_type = Some module ->
  mod_process_request module = Some handler ->
  Session_fault env = None ->
  execute_first env = Ret user_db ->
  handler user_id (injected user_db request) (main_ledger w) = (Ret result, l1) ->
  truthy (dict_get result "success") = true ->
  commit_fault env = Some e ->
  close_fault env = None ->
  process_request self env user_id request w =
  (Ret internal_error,
   {| session_log := session_log w ++ [SOpen; SExecute; SCommit; SClose];
      main_ledger := l1;
      sessions := sessions w |}).
Proof.
  intros Hres Hlook Hproc Hsess Hexec Hh Hok Hcommit Hclose.
  unfold MainApp.process_request.
  run_m. rewrite Hres, Hlook, Hproc, Hsess. simpl.
  rewrite Hexec. simpl. rewrite Hh. simpl. rewrite Hok. simpl.
  rewrite Hcommit. simpl.
  rewrite Hclose. simpl. rewrite <- !app_assoc. reflexivity.
Qed.

(** X11: when the query for the user's language raises, the handler is
    not invoked: whatever the handler is, the ledger is unchanged and
    the caller receives the internal-error result. *)
Theorem process_request_query_fault (self : MubarakAI) (env : Env)
    (user_id : string) (request : Dict) (w : World)
    (module_type : ModuleType) (module : Module) (handler : Handler)
    (e : PyExc) :
  resolve_module_type (dict_get request "module") = Ret module_type ->
  modules_lookup (modules self) module_type = Some module ->
  mod_process_request module = Some handler ->
  Session_fault env = None ->
  execute_first env = Raise e ->
  close_fault env = None ->
  process_request self env user_id request w =
  (Ret internal_error,
   {| session_log := session_log w ++ [SOpen; SExecute; SClose];
      main_ledger := main_ledger w;
      sessions := sessions w |}).
Proof.
  intros Hres Hlook Hproc Hsess Hexec Hclose.
  unfold MainApp.process_request.
  run_m. rewrite Hres, Hlook, Hproc, Hsess. simpl.
  rewrite Hexec. simpl.
  rewrite Hclose. simpl. rewrite <- !app_assoc. reflexivity.
Qed.

(** X12: what a request does to the shared state.  The registry of
    user sessions is never touched, and the ledger afterwards is the
    one before the call, the one the handler left, or the latter after
    the threshold trigger. *)
Theorem process_request_ledger_effect (self : MubarakAI) (env : Env)
    (user_id : string) (request : Dict) (w : World) :
  sessions (process_request self env user_id request w).2 = sessions w /\
  (main_ledger (process_request self env user_id request w).2 = main_ledger w \/
   exists (module_type : ModuleType) (module : Module) (handler : Handler)
          (user_db : PyVal) (r : Res Dict) (l1 : BlockchainLedger),
     resolve_module_type (dict_get request "module") = Ret module_type /\
     modules_lookup (modules self) module_type = Some module /\
     mod_process_request module = Some handler /\
     execute_first env = Ret user_db /\
     handler user_id (injected user_db request) (main_ledger w) = (r, l1) /\
     (main_ledger (process_request self env user_id request w).2 = l1 \/
      main_ledger (process_request self env user_id request w).2 =
        (seal_on_threshold hash genesis self env l1).2)).
Proof.
  unfold MainApp.process_request.
  run_m.
  repeat (case_match; simpl in *; split_runs); same_results;
    (split; [reflexivity |]); try (left; reflexivity);
    right; eexists _, _, _, _, _, _;
    repeat (split; [solve [eauto] |]);
    first [ left; reflexivity
          | right;
            match goal with
            | H : seal_on_threshold _ _ _ _ _ = _ |- _ => rewrite H
            end; reflexivity ].
Qed.

End DispatcherBehaviour.

(** ** get_db_session *)

(** X13: the session manager.  Once the session exists, the body runs
    on it; afterwards a rollback is issued exactly when the body raised,
    and the close is issued in every case.  The manager itself leaves
    the ledger and the user registry as the body left them, and when
    neither rollback nor close faults the outcome is the body's. *)
Theorem get_db_session_contract {A : Type} (env : Env) (body : M World A) (w : World) :
  Session_fault env = None ->
  let opened := {| session_log := session_log w ++ [SOpen];
                   main_ledger := main_ledger w;
                   sessions := sessions w |} in
  session_log (get_db_session env body w).2 =
    session_log (body opened).2 ++
    match (body opened).1 with Ret _ => [] | Raise _ => [SRollback] end ++ [SClose] /\
  main_ledger (get_db_session env body w).2 = main_ledger (body opened).2 /\
  sessions (get_db_session env body w).2 = sessions (body opened).2 /\
  (rollback_fault env = None -> close_fault env = None ->
   (get_db_session env body w).1 = (body opened).1).
Proof.
  intros Hsess opened. subst opened. run_m. rewrite Hsess. simpl.
  destruct (body _) as [[a | e] w1]; simpl.
  - destruct (close_fault env); simpl; repeat split; auto; discriminate.
  - destruct (rollback_fault env), (close_fault env); simpl;
      rewrite <- ?app_assoc; repeat split; auto; discriminate.
Qed.


(** ** Initial roles *)

Import AppMore.

Lemma existsb_elem_of {A : Type} (f : A -> bool) (l : list A) :
  existsb f l = true <-> exists x, x ∈ l /\ f x = true.
Proof.
  rewrite existsb_exists. split; intros (x & Hx & Hf); exists x;
    (split; [apply list_elem_of_In; exact Hx | exact Hf]).
Qed.

Section RoleFacts.

Variable str_lower : string -> string.

#[local] Abbreviation _detect_initial_roles := (_detect_initial_roles str_lower).
#[local] Abbreviation profession_text := (profession_text str_lower).

(** The run of [_detect_initial_roles] on data whose fields have the
    expected types. *)
Lemma _detect_initial_roles_run {S : Type} (env : Env) (user_data : Dict) (s : S)
    (year : Z) (address : string) :
  user_data !! "birth_year" = Some (VInt year) ->
  user_data !! "email" = Some (VStr address) ->
  (user_data !! "profession" = None \/
   exists p, user_data !! "profession" = Some (VStr p)) ->
  _detect_initial_roles env user_data s =
  (Ret ([MUSLIM]
        ++ (if (18 <=? now_year env - year) && (now_year env - year <=? 30)
            then [STUDENT] else [])
        ++ (if existsb (fun word => str_contains word (profession_text user_data))
                       ["teacher"; "учитель"; "преподаватель"]
            then [TEACHER] else [])
        ++ (if existsb (fun word => str_contains word (profession_text user_data))
                       ["investor"; "инвестор"; "финанс"]
            then [INVESTOR] else [])
        ++ (match dict_get user_data "family_status" with
            | VStr status => if String.eqb status "family" then [HOST_FAMILY] else []
            | _ => []
            end)
        ++ (if str_contains "admin" address then [ADMIN] else [])), s).
Proof.
  intros Hyear Hemail Hprof.
  unfold MainApp._detect_initial_roles, AppMore.profession_text, subscript,
    int_operand, str_in.
  rewrite Hyear, Hemail. run_m.
  destruct Hprof as [-> | [p ->]]; simpl;
    destruct (dict_get user_data "family_status") as [| | | status |];
    repeat match goal with
           | |- context [if ?c then _ else _] => destruct c
           end; reflexivity.
Qed.

Lemma elem_of_optional {A : Type} (c : bool) (r x : A) :
  x ∈ (if c then [r] else []) <-> c = true /\ x = r.
Proof.
  destruct c.
  - rewrite list_elem_of_singleton. intuition.
  - split; [intros H; inversion H | intros [H _]; discriminate].
Qed.

Lemma elem_of_host_family (v : PyVal) (x : UserRole) :
  x ∈ match v with
      | VStr status => if String.eqb status "family" then [HOST_FAMILY] else []
      | _ => []
      end <-> v = VStr "family" /\ x = HOST_FAMILY.
Proof.
  destruct v as [| | | status |];
    try (split; [intros H; inversion H | intros [H _]; discriminate]).
  rewrite elem_of_optional, String.eqb_eq. split; intros [H1 H2]; split; congruence.
Qed.

(** X14: the rules for the other initial roles, on data of the expected
    types.  [STUDENT] is given exactly for an age of 18 to 30 years,
    [HOST_FAMILY] exactly for the family status "family", [TEACHER] and
    [INVESTOR] exactly when the lower-cased profession contains one of
    the keywords. *)
Theorem detect_initial_roles_rules {S : Type} (env : Env) (user_data : Dict)
    (s s' : S) (year : Z) (address : string) (rs : list UserRole) :
  user_data !! "birth_year" = Some (VInt year) ->
  user_data !! "email" = Some (VStr address) ->
  (user_data !! "profession" = None \/
   exists p, user_data !! "profession" = Some (VStr p)) ->
  _detect_initial_roles env user_data s = (Ret rs, s') ->
  (STUDENT ∈ rs <-> 18 <= now_year env - year <= 30) /\
  (HOST_FAMILY ∈ rs <-> user_data !! "family_status" = Some (VStr "family")) /\
  (TEACHER ∈ rs <->
     exists word, word ∈ ["teacher"; "учитель"; "преподаватель"] /\
                  str_contains word (profession_text user_data) = true) /\
  (INVESTOR ∈ rs <->
     exists word, word ∈ ["investor"; "инвестор"; "финанс"] /\
                  str_contains word (profession_text user_data) = true).
Proof.
  intros Hyear Hemail Hprof Hrun.
  rewrite (_detect_initial_roles_run env user_data s year address Hyear Hemail Hprof)
    in Hrun.
  apply pair_equal_spec in Hrun as [Hrs _]. apply Ret_inj in Hrs. subst rs.
  rewrite <- !existsb_elem_of.
  assert (Hfam : dict_get user_data "family_status" = VStr "family" <->
                 user_data !! "family_status" = Some (VStr "family")).
  { unfold dict_get. destruct (user_data !! "family_status"); simpl;
      split; congruence. }
  rewrite <- Hfam.
  rewrite !elem_of_app, !elem_of_optional, !elem_of_host_family,
    !list_elem_of_singleton, andb_true_iff, !Z.leb_le.
  repeat split; intros; intuition (discriminate || congruence).
Qed.

(** X15: whatever the data, a returned role list respects the order
    MUSLIM, STUDENT, TEACHER, INVESTOR, HOST_FAMILY, ADMIN: it starts
    with [MUSLIM] and no role occurs twice. *)
Theorem detect_initial_roles_ordered {S : Type} (env : Env) (user_data : Dict)
    (s s' : S) (rs : list UserRole) :
  _detect_initial_roles env user_data s = (Ret rs, s') ->
  sublist rs role_order /\ NoDup rs /\ head rs = Some MUSLIM.
Proof.
  unfold MainApp._detect_initial_roles, subscript, int_operand, str_in. run_m.
  destruct (user_data !! "birth_year") as [[| ? | ? | ? | ?] |]; simpl;
    try (intros Hrun; discriminate Hrun);
    destruct (user_data !! "profession") as [[| ? | ? | ? | ?] |]; simpl;
    try (intros Hrun; discriminate Hrun);
    destruct (user_data !! "email") as [[| ? | ? | ? | ?] |]; simpl;
    try (intros Hrun; discriminate Hrun);
    destruct (dict_get user_data "family_status") as [| ? | ? | ? | ?];
    repeat match goal with
           | |- context [if ?c then _ else _] => destruct c
           end;
    intros Hrun; split_runs; same_results;
    (split;
     [ unfold role_order;
       repeat first [apply sublist_nil | apply sublist_skip | apply sublist_cons]
     | split; [apply (bool_decide_unpack _); vm_compute; exact I | reflexivity] ]).
Qed.


End RoleFacts.

(** ** register_user: failures and effects *)

Lemma substring_length_le (n m : nat) (s : string) :
  (String.length (String.substring n m s) <= m)%nat.
Proof.
  revert n m. induction s as [| c s IH]; intros [| n] [| m]; simpl; try lia.
  - specialize (IH 0%nat m). lia.
  - apply (IH n 0%nat).
  - apply (IH n (S m)).
Qed.

(** Membership in an explicit list. *)
Ltac in_list := apply list_elem_of_In; simpl; auto 10.

Section RegistrationBehaviour.

Variable ModuleType_value : ModuleType -> string.
Variable sha256_hexdigest : string -> string.
Variable py_str : PyVal -> string.
Variable exc_str : PyExc -> string.
Variable str_lower : string -> string.
Variable _generate_welcome_package : MubarakUser -> Res PyVal.

#[local] Abbreviation _detect_initial_roles := (_detect_initial_roles str_lower).
#[local] Abbreviation initialize_modules := (initialize_modules ModuleType_value).
#[local] Abbreviation register_user :=
  (register_user ModuleType_value sha256_hexdigest py_str exc_str str_lower
     _generate_welcome_package).

(** Neither the role detection nor the module initialisations touch
    the state. *)
Lemma _detect_initial_roles_state {S : Type} (env : Env) (user_data : Dict) (s : S) :
  (_detect_initial_roles env user_data s).2 = s.
Proof.
  unfold MainApp._detect_initial_roles, subscript, int_operand, str_in. run_m.
  destruct (user_data !! "birth_year") as [[| ? | ? | ? | ?] |]; simpl; try reflexivity;
    destruct (user_data !! "profession") as [[| ? | ? | ? | ?] |]; simpl; try reflexivity;
    destruct (user_data !! "email") as [[| ? | ? | ? | ?] |]; reflexivity.
Qed.

Lemma initialize_modules_state {S : Type} (ms : list (ModuleType * Module))
    (user : MubarakUser) (acc : Dict) (s : S) :
  (initialize_modules ms user acc s).2 = s.
Proof.
  revert acc. induction ms as [| [t m] ms IH]; intros acc; simpl; [reflexivity |].
  destruct (initialize m) as [init |]; [| apply IH].
  unfold bind, lift. destruct (init user); [apply IH | reflexivity].
Qed.

(** X17: when a required field is missing, the registration fails with
    the [KeyError] of a missing field and the world is untouched: no
    session is created and nobody is entered in the registry. *)
Theorem register_user_missing_field (self : MubarakAI) (env : Env)
    (user_data : Dict) (w : World) (k : string) :
  k ∈ required_fields ->
  user_data !! k = None ->
  exists k', k' ∈ required_fields /\ user_data !! k' = None /\
    register_user self env user_data w = (Ret (false, exc_str (KeyError k'), None), w).
Proof.
  intros Hk Hnone. unfold MainApp.register_user, subscript, required_fields in *. run_m.
  destruct (user_data !! "email") eqn:H1;
    [| exists "email"; repeat split; [in_list | assumption]].
  destruct (user_data !! "phone") eqn:H2;
    [| exists "phone"; repeat split; [in_list | assumption]].
  destruct (user_data !! "full_name") eqn:H3;
    [| exists "full_name"; repeat split; [in_list | assumption]].
  destruct (user_data !! "birth_year") eqn:H4;
    [| exists "birth_year"; repeat split; [in_list | assumption]].
  destruct (user_data !! "gender") eqn:H5;
    [| exists "gender"; repeat split; [in_list | assumption]].
  destruct (user_data !! "location") eqn:H6;
    [| exists "location"; repeat split; [in_list | assumption]].
  exfalso. rewrite !elem_of_cons in Hk.
  destruct Hk as [-> | [-> | [-> | [-> | [-> | [-> | Hk]]]]]];
    [congruence .. | inversion Hk].
Qed.

(** X18: a [profession] that is present but not a string (for instance
    [None]) makes the registration fail before any session is created;
    the world is untouched. *)
Theorem register_user_bad_profession (self : MubarakAI) (env : Env)
    (user_data : Dict) (w : World) (v : PyVal) :
  user_data !! "profession" = Some v ->
  (forall p, v <> VStr p) ->
  exists msg, register_user self env user_data w = (Ret (false, msg, None), w).
Proof.
  intros Hprof Hv.
  unfold MainApp.register_user, MainApp._detect_initial_roles, subscript, int_operand.
  rewrite Hprof. run_m.
  destruct (user_data !! "email"); [| eexists; reflexivity].
  destruct (user_data !! "phone"); [| eexists; reflexivity].
  destruct (user_data !! "full_name"); [| eexists; reflexivity].
  destruct (user_data !! "birth_year") as [[| ? | ? | ? | ?] |];
    try (eexists; reflexivity);
    destruct (user_data !! "gender"); try (eexists; reflexivity);
    destruct (user_data !! "location"); try (eexists; reflexivity);
    destruct v as [| ? | ? | prof | ?]; try (eexists; reflexivity);
    exfalso; apply (Hv prof); reflexivity.
Qed.

(** X19: when the commit of the new row raises, the session manager
    rolls the session back and closes it, and the registration fails
    with that exception; the registry of user sessions is untouched. *)
Theorem register_user_commit_fault (self : MubarakAI) (env : Env)
    (user_data : Dict) (w : World) (rs : list UserRole) (e : PyExc) :
  (forall k, k ∈ required_fields -> is_Some (user_data !! k)) ->
  _detect_initial_roles env user_data w = (Ret rs, w) ->
  Session_fault env = None ->
  commit_fault env = Some e ->
  rollback_fault env = None ->
  close_fault env = None ->
  register_user self env user_data w =
  (Ret (false, exc_str e, None),
   {| session_log := session_log w ++ [SOpen; SAdd; SCommit; SRollback; SClose];
      main_ledger := main_ledger w;
      sessions := sessions w |}).
Proof.
  intros Hreq Hroles Hsess Hcommit Hroll Hclose.
  assert (Hk : forall k, k ∈ required_fields -> exists v, user_data !! k = Some v)
    by (intros k Hk; apply Hreq, Hk).
  destruct (Hk "email") as [v1 H1]; [in_list |].
  destruct (Hk "phone") as [v2 H2]; [in_list |].
  destruct (Hk "full_name") as [v3 H3]; [in_list |].
  destruct (Hk "birth_year") as [v4 H4]; [in_list |].
  destruct (Hk "gender") as [v5 H5]; [in_list |].
  destruct (Hk "location") as [v6 H6]; [in_list |].
  unfold MainApp.register_user, subscript.
  rewrite H1, H2, H3, H4, H5, H6. run_m.
  rewrite Hroles. simpl. rewrite Hsess. simpl. rewrite Hcommit. simpl.
  rewrite Hroll. simpl. rewrite Hclose. simpl.
  rewrite <- !app_assoc. reflexivity.
Qed.

(** X20: what a successful registration has done.  One session was
    created, the row added, committed once and the session closed; the
    ledger is untouched; the returned identifier is that of the user,
    has at most 12 characters, and the registry of user sessions has a
    new entry under it that lists every registered module, all other
    entries being as before. *)
Theorem register_user_success_effects (self : MubarakAI) (env : Env)
    (user_data : Dict) (w w' : World) (uid : string) (reg : Registration) :
  register_user self env user_data w = (Ret (true, uid, Some reg), w') ->
  session_log w' = session_log w ++ [SOpen; SAdd; SCommit; SClose] /\
  main_ledger w' = main_ledger w /\
  user_id (reg_user reg) = uid /\
  (String.length uid <= 12)%nat /\
  (exists entry, sessions w' !! uid = Some entry /\
                 active_modules entry = (modules self).*1 /\
                 module_states entry = reg_module_initializations reg) /\
  (forall k, k <> uid -> sessions w' !! k = sessions w !! k).
Proof.
  unfold MainApp.register_user, subscript. run_m.
  destruct (user_data !! "email") as [v1 |]; [| intros H; discriminate H].
  destruct (user_data !! "phone") as [v2 |]; [| intros H; discriminate H].
  destruct (user_data !! "full_name") as [v3 |]; [| intros H; discriminate H].
  destruct (user_data !! "birth_year") as [v4 |]; [| intros H; discriminate H].
  destruct (user_data !! "gender") as [v5 |]; [| intros H; discriminate H].
  destruct (user_data !! "location") as [v6 |]; [| intros H; discriminate H].
  pose proof (_detect_initial_roles_state env user_data w) as Hd.
  destruct (_detect_initial_roles env user_data w) as [[rs | e] s1];
    simpl in Hd; subst s1; [| intros H; discriminate H].
  simpl.
  destruct (Session_fault env); simpl; [intros H; discriminate H |].
  destruct (commit_fault env); simpl.
  { destruct (rollback_fault env), (close_fault env); simpl; intros H; discriminate H. }
  destruct (close_fault env); simpl; [intros H; discriminate H |].
  match goal with
  | |- context [initialize_modules ?ms ?u ?acc ?s] =>
      pose proof (initialize_modules_state ms u acc s) as Hi;
      destruct (initialize_modules ms u acc s) as [[inits | e] s2]
  end; simpl in Hi; subst s2; simpl; [| intros H; discriminate H].
  destruct (_generate_welcome_package _) as [package | e]; simpl;
    [| intros H; discriminate H].
  intros H. apply pair_equal_spec in H as [H <-]. apply Ret_inj in H.
  injection H as <- <-. simpl.
  rewrite <- !app_assoc. repeat split.
  - apply substring_length_le.
  - eexists. rewrite lookup_insert_eq. repeat split.
  - intros k Hk. apply lookup_insert_ne. congruence.
Qed.

(** X21: a fault of the welcome package comes after the commit: it
    turns the answer into a failure and changes nothing else.  The row
    is committed and the user is in the registry of sessions. *)
Theorem register_user_late_failure (self : MubarakAI) (env : Env)
    (user_data : Dict) (w w' : World) (uid : string) (reg : Registration)
    (package : PyVal) (e : PyExc) :
  MainApp.register_user ModuleType_value sha256_hexdigest py_str exc_str str_lower
    (fun _ => Ret package) self env user_data w = (Ret (true, uid, Some reg), w') ->
  MainApp.register_user ModuleType_value sha256_hexdigest py_str exc_str str_lower
    (fun _ => Raise e) self env user_data w = (Ret (false, exc_str e, None), w').
Proof.
  unfold MainApp.register_user, subscript. run_m.
  destruct (user_data !! "email") as [v1 |]; [| intros H; discriminate H].
  destruct (user_data !! "phone") as [v2 |]; [| intros H; discriminate H].
  destruct (user_data !! "full_name") as [v3 |]; [| intros H; discriminate H].
  destruct (user_data !! "birth_year") as [v4 |]; [| intros H; discriminate H].
  destruct (user_data !! "gender") as [v5 |]; [| intros H; discriminate H].
  destruct (user_data !! "location") as [v6 |]; [| intros H; discriminate H].
  destruct (_detect_initial_roles env user_data w) as [[rs | e0] s1];
    [| intros H; discriminate H].
  simpl.
  destruct (Session_fault env); simpl; [intros H; discriminate H |].
  destruct (commit_fault env); simpl.
  { destruct (rollback_fault env), (close_fault env); simpl; intros H; discriminate H. }
  destruct (close_fault env); simpl; [intros H; discriminate H |].
  match goal with
  | |- context [initialize_modules ?ms ?u ?acc ?s] =>
      destruct (initialize_modules ms u acc s) as [[inits | e0] s2]
  end; simpl; [| intros H; discriminate H].
  intros H. apply pair_equal_spec in H as [_ <-]. reflexivity.
Qed.

End RegistrationBehaviour.

(** ** Module tags and suggestions *)

(** X22: the tag round trip.  With distinct, non-empty member values,
    the value of a member resolves to that member; and whatever
    [ModuleType(...)] accepts is the value of the member it returns. *)
Theorem resolve_module_type_value (ModuleType_value : ModuleType -> string)
    (m : ModuleType) :
  (forall a b, ModuleType_value a = ModuleType_value b -> a = b) ->
  ModuleType_value m <> "" ->
  resolve_module_type ModuleType_value (VStr (ModuleType_value m)) = Ret m /\
  (forall v m', ModuleType_call ModuleType_value v = Ret m' ->
                v = VStr (ModuleType_value m')).
Proof.
  intros Hinj Hne. split.
  - unfold resolve_module_type, ModuleType_call. simpl.
    apply String.eqb_neq in Hne. rewrite Hne. simpl.
    assert (Hd : forall a, a <> m ->
                   String.eqb (ModuleType_value a) (ModuleType_value m) = false).
    { intros a Ha. apply String.eqb_neq. intros H. apply Ha, Hinj, H. }
    destruct m; repeat first
      [ rewrite String.eqb_refl; reflexivity
      | rewrite Hd by discriminate ].
  - intros v m' Hcall. unfold ModuleType_call in Hcall.
    destruct v as [| ? | ? | tag | ?]; try discriminate.
    destruct (find _ _) as [found |] eqn:Hfind; [| discriminate].
    apply Ret_inj in Hcall. subst found.
    apply find_some in Hfind as [_ Heq]. apply String.eqb_eq in Heq. congruence.
Qed.

(** X23: the suggestion for two modules does not depend on their
    order. *)
Theorem synergy_suggestion_symmetric (mod1 mod2 : ModuleType) :
  _get_synergy_suggestion mod1 mod2 = _get_synergy_suggestion mod2 mod1.
Proof. destruct mod1, mod2; reflexivity. Qed.

(** ** The sealing triggers: no empty block *)

Section TriggerBlocks.

Variable hash : Block -> string.
Variable genesis : Block.

Lemma create_block_nonempty (proof : Z) (miner : string) (now : Z) (l : BlockchainLedger) :
  sealed_nonempty l -> pending_transactions l <> [] ->
  sealed_nonempty (create_block hash genesis proof miner now l).
Proof.
  intros [Hne Hall] Hp. split; simpl.
  - destruct (chain l); discriminate.
  - destruct (chain l) as [| b0 c]; [contradiction |]. simpl in *.
    rewrite drop_0 in *. apply Forall_app. split; [exact Hall |].
    constructor; [exact Hp | constructor].
Qed.

Lemma sched_step_nonempty (self : MubarakAI) (st : SchedState) (ev : Event) :
  0 < BLOCK_CREATION_THRESHOLD self ->
  sealed_nonempty st.1 -> sealed_nonempty (sched_step hash genesis self st ev).1.
Proof.
  intros Hthr Hinv. destruct st as [l alive], ev as [tx | env | env];
    cbn [sched_step fst snd] in *.
  - exact Hinv.
  - unfold seal_on_threshold, self_logger_info, bind, get_state, modify_state, ret, raise.
    cbv beta iota.
    destruct (BLOCK_CREATION_THRESHOLD self <=? _) eqn:Hle, (logger self);
      cbv beta iota; cbn [snd]; try exact Hinv.
    apply create_block_nonempty; [exact Hinv |].
    apply Z.leb_le in Hle. destruct (pending_transactions l); [simpl in Hle; lia | discriminate].
  - destruct alive; [| exact Hinv].
    unfold periodic_iteration, self_logger_info, bind, get_state, modify_state, ret, raise.
    cbv beta iota.
    destruct (pending_transactions l) eqn:Hp, (logger self);
      cbv beta iota; cbn [fst]; try exact Hinv.
    apply create_block_nonempty; [exact Hinv | congruence].
Qed.

(** X24: with a positive threshold, no interleaving of submissions,
    threshold checks and timer wake-ups ever produces an empty block:
    every block after the genesis block holds a transaction. *)
Theorem sealing_triggers_no_empty_block (self : MubarakAI) (evs : list Event)
    (i : nat) (b : Block) :
  0 < BLOCK_CREATION_THRESHOLD self ->
  chain (run_schedule hash genesis self evs).1 !! S i = Some b ->
  transactions b <> [].
Proof.
  intros Hthr Hb.
  assert (Hinv : sealed_nonempty (run_schedule hash genesis self evs).1).
  { clear Hb. unfold run_schedule.
    induction evs as [| ev evs IH] using rev_ind.
    - split; [discriminate | constructor].
    - rewrite fold_left_app. simpl. apply sched_step_nonempty; [exact Hthr |].
      apply IH. }
  destruct Hinv as [_ Hall]. rewrite Forall_forall in Hall. apply Hall.
  apply list_elem_of_lookup. exists i. rewrite lookup_drop. exact Hb.
Qed.

End TriggerBlocks.

(** ** _prioritize_recommendations *)

Lemma key_ge_trans (a b c : SortKey * Dict) : key_ge a b -> key_ge b c -> key_ge a c.
Proof.
  unfold key_ge, key_lt. destruct a as [[wa ra] xa], b as [[wb rb] xb], c as [[wc rc] xc].
  simpl. intros H1 H2.
  apply orb_false_iff in H1 as [H1 H1'], H2 as [H2 H2'].
  apply Z.ltb_ge in H1, H2. apply orb_false_iff. split; [apply Z.ltb_ge; lia |].
  apply andb_false_iff in H1' as [H1' | H1'], H2' as [H2' | H2'];
    apply andb_false_iff;
    rewrite ?Z.eqb_neq, ?Z.ltb_ge in *;
    destruct (Z.eq_dec wa wc); [right | left | right | left | right | left | right | left];
    rewrite ?Z.eqb_neq, ?Z.ltb_ge; lia.
Qed.

Lemma key_lt_ge (a b : SortKey * Dict) : key_lt a.1 b.1 = true -> key_ge b a.
Proof.
  unfold key_ge, key_lt. destruct a as [[wa ra] xa], b as [[wb rb] xb]. simpl.
  intros H. apply orb_true_iff in H.
  apply orb_false_iff. rewrite andb_false_iff, Z.ltb_ge, Z.eqb_neq, Z.ltb_ge.
  destruct H as [H | H].
  - apply Z.ltb_lt in H. split; [lia | left; lia].
  - apply andb_true_iff in H as [H1 H2]. apply Z.eqb_eq in H1. apply Z.ltb_lt in H2.
    split; [lia | right; lia].
Qed.

Lemma insert_desc_perm (x : SortKey * Dict) (l : list (SortKey * Dict)) :
  insert_desc x l ≡ₚ x :: l.
Proof.
  induction l as [| y l IH]; simpl; [reflexivity |].
  destruct (key_lt x.1 y.1); [| reflexivity].
  rewrite IH. apply Permutation_swap.
Qed.

Lemma insert_desc_sorted (x : SortKey * Dict) (l : list (SortKey * Dict)) :
  StronglySorted key_ge l -> StronglySorted key_ge (insert_desc x l).
Proof.
  induction 1 as [| y l Hl IH Hy]; simpl.
  - repeat constructor.
  - destruct (key_lt x.1 y.1) eqn:Hxy.
    + constructor; [exact IH |].
      apply Forall_forall. intros z Hz. rewrite insert_desc_perm in Hz.
      apply elem_of_cons in Hz as [-> | Hz].
      * apply key_lt_ge, Hxy.
      * rewrite Forall_forall in Hy. auto.
    + constructor; [constructor; assumption |].
      constructor; [exact Hxy |].
      apply Forall_forall. intros z Hz. rewrite Forall_forall in Hy.
      apply (key_ge_trans x y z); [exact Hxy | auto].
Qed.

Lemma sorted_reverse_perm (l : list (SortKey * Dict)) : sorted_reverse l ≡ₚ l.
Proof.
  induction l as [| x l IH]; simpl; [reflexivity |].
  rewrite insert_desc_perm, IH. reflexivity.
Qed.

Lemma sorted_reverse_sorted (l : list (SortKey * Dict)) :
  StronglySorted key_ge (sorted_reverse l).
Proof.
  induction l as [| x l IH]; simpl; [constructor | apply insert_desc_sorted, IH].
Qed.

(** The keys are computed for the items as they stand, with their
    weights. *)
Lemma decorate_spec (random : nat -> Z) (n : nat) (recs : list Dict)
    (keyed : list (SortKey * Dict)) :
  decorate random n recs = Ret keyed ->
  map snd keyed = recs /\
  Forall (fun kx => kx.1.1 = weight_of kx.2) keyed.
Proof.
  revert n keyed. induction recs as [| x recs IH]; intros n keyed; simpl.
  - intros H. apply Ret_inj in H. subst. split; [reflexivity | constructor].
  - destruct (priority_weight x) as [weight | e] eqn:Hw; [| discriminate].
    destruct (decorate random (S n) recs) as [rest | e] eqn:Hrest; [| discriminate].
    intros H. apply Ret_inj in H. subst keyed.
    destruct (IH _ _ Hrest) as [Hmap Hall]. split; simpl; [congruence |].
    constructor; [| exact Hall]. simpl. unfold weight_of. rewrite Hw. reflexivity.
Qed.

(** X25: the result of [_prioritize_recommendations] has at most ten
    items, min(10, n) of the n given; they come from the input, each
    occurrence at most once; they stand in order of non-increasing
    priority weight; and no item left out outweighs an item kept.  The
    random draws only order items of equal weight. *)
Theorem prioritize_recommendations_top (random : nat -> Z)
    (recommendations out : list Dict) :
  _prioritize_recommendations random recommendations = Ret out ->
  length out = Nat.min 10 (length recommendations) /\
  StronglySorted (fun x y => weight_of y <= weight_of x) out /\
  exists rest,
    out ++ rest ≡ₚ recommendations /\
    (forall x y, x ∈ out -> y ∈ rest -> weight_of y <= weight_of x).
Proof.
  unfold _prioritize_recommendations.
  destruct (decorate random 0 recommendations) as [keyed | e] eqn:Hdec; [| discriminate].
  intros H. apply Ret_inj in H. subst out.
  destruct (decorate_spec _ _ _ _ Hdec) as [Hmap Hweights].
  pose proof (sorted_reverse_perm keyed) as Hperm.
  pose proof (sorted_reverse_sorted keyed) as Hsorted.
  assert (Hw : Forall (fun kx => kx.1.1 = weight_of kx.2) (sorted_reverse keyed)).
  { rewrite Forall_forall in *. intros kx Hkx. apply Hweights. rewrite <- Hperm. exact Hkx. }
  assert (Hitems : StronglySorted (fun x y => weight_of y <= weight_of x)
                     (map snd (sorted_reverse keyed))).
  { clear Hperm. induction Hsorted as [| kx l Hl IH Hkx]; simpl; [constructor |].
    apply Forall_cons in Hw as [Hkw Hw]. constructor; [apply IH, Hw |].
    apply Forall_forall. intros y Hy. apply list_elem_of_fmap in Hy as (ky & -> & Hky).
    rewrite Forall_forall in Hkx, Hw. specialize (Hkx ky Hky). specialize (Hw ky Hky).
    unfold key_ge, key_lt in Hkx. apply orb_false_iff in Hkx as [Hkx _].
    apply Z.ltb_ge in Hkx.
    eapply Z.le_trans; [apply Z.eq_le_incl; symmetry; exact Hw |].
    eapply Z.le_trans; [exact Hkx | apply Z.eq_le_incl; exact Hkw]. }
  rewrite <- (take_drop 10 (map snd (sorted_reverse keyed))) in Hitems.
  apply StronglySorted_app in Hitems as (Hcross & Htake & Hdrop).
  split; [| split].
  - rewrite length_take, length_map, Hperm, <- Hmap, length_map. lia.
  - exact Htake.
  - exists (drop 10 (map snd (sorted_reverse keyed))). split.
    + rewrite take_drop, Hperm, Hmap. reflexivity.
    + intros x y Hx Hy. apply (Hcross x y Hx Hy).
Qed.




(** ** register_nodes *)

Section NodeFacts.

Variable urlparse : string -> Res (string * string).

#[local] Abbreviation register_node := (register_node urlparse).
#[local] Abbreviation register_nodes := (register_nodes urlparse).
#[local] Abbreviation node_address := (node_address urlparse).

(** [urlparse] raises nothing but [ValueError]. *)
Hypothesis urlparse_faults : forall url e, urlparse url = Raise e -> e = ValueError.

Lemma register_node_spec (url : string) (nodes : gset string) :
  register_node url nodes =
  (Ret tt, match node_address url with
           | Some address => nodes ∪ {[address]}
           | None => nodes
           end).
Proof.
  unfold AppMore.register_node, AppMore.node_address, try_except_when, bind, lift,
    modify_state, raise, ret.
  destruct (urlparse url) as [[netloc path] | e] eqn:Hparse; simpl.
  - destruct (String.eqb netloc ""); simpl; [| reflexivity].
    destruct (String.eqb path ""); reflexivity.
  - rewrite (urlparse_faults url e Hparse). reflexivity.
Qed.

Lemma register_nodes_spec (urls : list string) (nodes : gset string) :
  register_nodes urls nodes =
  (Ret ("Новые узлы успешно добавлены",
        nodes ∪ list_to_set (omap node_address urls)),
   nodes ∪ list_to_set (omap node_address urls)).
Proof.
  revert nodes. induction urls as [| url urls IH]; intros nodes; simpl.
  - unfold bind, get_state, ret. simpl.
    rewrite (right_id_L ∅ (∪)). reflexivity.
  - unfold bind at 1. rewrite register_node_spec. rewrite IH.
    destruct (node_address url) as [address |]; simpl; [| reflexivity].
    rewrite <- (assoc_L (∪)). reflexivity.
Qed.

(** X27: registering nodes never raises and never forgets a node; a
    malformed URL is skipped without stopping the loop; the outcome
    does not depend on the order of the URLs; and registering the same
    URLs again changes nothing. *)
Theorem register_nodes_registry (urls urls' : list string) (nodes : gset string) :
  (exists total, register_nodes urls nodes =
                 (Ret ("Новые узлы успешно добавлены", total), total) /\
                 nodes ⊆ total /\
                 (forall url address, url ∈ urls -> node_address url = Some address ->
                                      address ∈ total) /\
                 register_nodes urls total = register_nodes urls nodes) /\
  (urls ≡ₚ urls' -> register_nodes urls' nodes = register_nodes urls nodes).
Proof.
  split.
  - exists (nodes ∪ list_to_set (omap node_address urls)).
    split; [apply register_nodes_spec |]. split; [apply union_subseteq_l |]. split.
    + intros url address Hurl Haddr. apply elem_of_union. right.
      apply elem_of_list_to_set, list_elem_of_omap. eauto.
    + rewrite !register_nodes_spec.
      rewrite <- (assoc_L (∪)), (idemp_L (∪)). reflexivity.
  - intros Hperm. rewrite !register_nodes_spec.
    assert (Heq : (list_to_set (omap node_address urls') : gset string) =
                  list_to_set (omap node_address urls)).
    { apply set_eq. intros a. rewrite !elem_of_list_to_set, !list_elem_of_omap.
      split; intros (u & Hu & Ha); exists u; (split; [| exact Ha]);
        [rewrite Hperm | rewrite <- Hperm]; exact Hu. }
    rewrite Heq. reflexivity.
Qed.

End NodeFacts.

(** ** get_daily_dashboard *)

Section DashboardFacts.

Variable user_row : Res (option (PyVal * PyVal)).
Variable get_daily_recommendations :
  ModuleType -> Module -> string -> PyVal -> Res (list PyVal).

#[local] Abbreviation collect_recommendations :=
  (collect_recommendations get_daily_recommendations).
#[local] Abbreviation module_recommendations :=
  (module_recommendations get_daily_recommendations).
#[local] Abbreviation get_daily_dashboard :=
  (get_daily_dashboard user_row get_daily_recommendations).

Lemma collect_recommendations_spec (ms : list (ModuleType * Module))
    (user_id : string) (career_level : PyVal) (acc : list PyVal) :
  collect_recommendations ms user_id career_level acc =
  acc ++ concat (map (module_recommendations user_id career_level) ms).
Proof.
  revert acc. induction ms as [| [t m] ms IH]; intros acc; simpl.
  - rewrite app_nil_r. reflexivity.
  - unfold AppMore.module_recommendations at 1. simpl.
    destruct (get_daily_recommendations t m user_id career_level); rewrite IH.
    + rewrite app_assoc. reflexivity.
    + reflexivity.
Qed.

(** X28: for a known user the dashboard never fails because of a
    module: it answers with the user's name and the recommendations of
    the modules that returned, in registry order, a raising module
    contributing nothing; the session is only read and closed. *)
Theorem get_daily_dashboard_recommendations (self : MubarakAI) (env : Env)
    (user_id : string) (w : World) (full_name career_level : PyVal) :
  Session_fault env = None ->
  close_fault env = None ->
  user_row = Ret (Some (full_name, career_level)) ->
  get_daily_dashboard self env user_id w =
  (Ret (<["recommendations" :=
            VList (concat (map (module_recommendations user_id career_level)
                               (modules self)))]>
          {["user_name" := full_name]}),
   {| session_log := session_log w ++ [SOpen; SExecute; SClose];
      main_ledger := main_ledger w;
      sessions := sessions w |}).
Proof.
  intros Hsess Hclose Hrow. unfold AppMore.get_daily_dashboard. run_m.
  rewrite Hsess, Hrow. simpl. rewrite Hclose. simpl.
  rewrite collect_recommendations_spec, <- !app_assoc. reflexivity.
Qed.

(** X29: when the dashboard's query raises, the session manager rolls
    back and closes the session and the exception reaches the caller;
    and for an unknown user the answer is the not-found result, no
    module being consulted. *)
Theorem get_daily_dashboard_no_user (self : MubarakAI) (env : Env)
    (user_id : string) (w : World) :
  Session_fault env = None ->
  rollback_fault env = None ->
  close_fault env = None ->
  (forall e, user_row = Raise e ->
     get_daily_dashboard self env user_id w =
     (Raise e,
      {| session_log := session_log w ++ [SOpen; SExecute; SRollback; SClose];
         main_ledger := main_ledger w;
         sessions := sessions w |})) /\
  (user_row = Ret None ->
     get_daily_dashboard self env user_id w =
     (Ret {["error" := VStr "Пользователь не найден"]},
      {| session_log := session_log w ++ [SOpen; SExecute; SClose];
         main_ledger := main_ledger w;
         sessions := sessions w |})).
Proof.
  intros Hsess Hroll Hclose. unfold AppMore.get_daily_dashboard. run_m.
  rewrite Hsess. simpl. split.
  - intros e ->. simpl. rewrite Hroll. simpl. rewrite Hclose. simpl.
    rewrite <- !app_assoc. reflexivity.
  - intros ->. simpl. rewrite Hclose. simpl. rewrite <- !app_assoc. reflexivity.
Qed.

End DashboardFacts.

(** ** The waqf endpoints *)

Section DispatcherCases.

Variable hash : Block -> string.
Variable genesis : Block.
Variable ModuleType_value : ModuleType -> string.

#[local] Abbreviation process_request := (process_request hash genesis ModuleType_value).
#[local] Abbreviation resolve_module_type := (resolve_module_type ModuleType_value).

(** The results of [process_request] and how each comes about. *)
Lemma process_request_result_cases (self : MubarakAI) (env : Env)
    (user_id : string) (request : Dict) (w w' : World) (response : Dict) :
  process_request self env user_id request w = (Ret response, w') ->
  response = {["error" := VStr "Модуль не найден"]} \/
  (exists module_type,
     response = {["error" := VStr ("Module " +:+ ModuleType_value module_type +:+
                                   " does not have process_request method")]}) \/
  response = internal_error \/
  exists module_type module handler user_db result l1 recs,
    resolve_module_type (dict_get request "module") = Ret module_type /\
    modules_lookup (modules self) module_type = Some module /\
    mod_process_request module = Some handler /\
    Session_fault env = None /\
    execute_first env = Ret user_db /\
    handler user_id (injected user_db request) (main_ledger w) = (Ret result, l1) /\
    generate_recommendations env user_id (dict_get request "type") result = Ret recs /\
    response = <["additional_recommendations" := recs]> result.
Proof.
  unfold MainApp.process_request, seal_on_threshold, self_logger_info.
  run_m.
  repeat (case_match; simpl in *; split_runs); intros Hrun; split_runs;
    try discriminate; same_results; eauto 6.
  all: right; right; right; eexists _, _, _, _, _, _, _;
    repeat (split; [solve [eauto] |]); reflexivity.
Qed.

End DispatcherCases.

Section WaqfFacts.

Import Routers.

Variable hash : Block -> string.
Variable genesis : Block.
Variable ModuleType_value : ModuleType -> string.

#[local] Abbreviation list_available_waqfs :=
  (list_available_waqfs hash genesis ModuleType_value).
#[local] Abbreviation create_new_waqf :=
  (create_new_waqf hash genesis ModuleType_value).

Lemma successful_result_committed (self : MubarakAI) (env : Env)
    (user_id : string) (request : Dict) (w w' : World) (body : Dict) :
  process_request hash genesis ModuleType_value self env user_id request w = (Ret body, w') ->
  truthy (dict_get body "success") = true ->
  is_Some (body !! "additional_recommendations") /\
  session_log w' = session_log w ++ [SOpen; SExecute; SCommit; SClose].
Proof.
  intros Hrun Hok.
  destruct (process_request_result_cases _ _ _ _ _ _ _ _ _ _ Hrun)
    as [-> | [[mt ->] | [-> | Hcase]]]; try discriminate Hok.
  destruct Hcase as (mt & module & handler & user_db & result & l1 & recs &
                     Hres & Hlook & Hproc & Hsess & Hexec & Hh & Hrec & ->).
  split; [rewrite lookup_insert_eq; eauto |].
  pose proof (process_request_log_after_handler hash genesis ModuleType_value
                self env user_id request w mt module handler user_db result l1
                Hres Hlook Hproc Hsess Hexec Hh) as Hlog.
  rewrite Hrun in Hlog. simpl in Hlog. rewrite Hlog.
  unfold dict_get in Hok. 
  destruct (decide ("additional_recommendations" = "success")) as [Heq | Hne];
    [discriminate Heq |].
  rewrite lookup_insert_ne in Hok by exact Hne.
  unfold dict_get. rewrite Hok. reflexivity.
Qed.

(** X30: a normal response of the waqf endpoints always is a handler
    result with a true success flag and the recommendations attached,
    and the request's session was committed once and closed; every
    other outcome of the dispatcher becomes an [HTTPException] or an
    unhandled exception. *)
Theorem waqf_endpoints_response (self : MubarakAI) (env : Env) (w w' : World)
    (body : Dict) (skip limit : Z) (waqf_data : Dict) (user_id : string) :
  list_available_waqfs skip limit self env w = (Response body, w') \/
  create_new_waqf waqf_data user_id self env w = (Response body, w') ->
  truthy (dict_get body "success") = true /\
  is_Some (body !! "additional_recommendations") /\
  session_log w' = session_log w ++ [SOpen; SExecute; SCommit; SClose].
Proof.
  unfold Routers.list_available_waqfs, Routers.create_new_waqf.
  intros [H | H];
    match type of H with
    | context [MainApp.process_request ?h ?g ?v ?s ?e ?u ?r ?w0] =>
        destruct (MainApp.process_request h g v s e u r w0) as [[result | e0] w1] eqn:Hrun
    end; try discriminate H;
    destruct (truthy (dict_get result "success")) eqn:Hok; simpl in H;
    try discriminate H;
    apply pair_equal_spec in H as [H <-]; injection H as <-;
    (split; [exact Hok |]);
    eapply successful_result_committed; eauto.
Qed.

End WaqfFacts.

Import MoreExamples.

(** * Runs of the further properties *)

Lemma redis_cache_miss_raises_witness :
  cached_with client (Raise (OtherError "db")) [Caching.ArgVal (VStr "w1")]
    [("limit", Caching.ArgVal (VInt 20))] (∅, 0%nat)
  = (Raise (OtherError "db"), (∅, 1%nat)).
Proof.
  apply (redis_cache_miss_raises Store show_arg show_exc store_get store_setex
           toy_loads toy_dumps (fun _ => ret tt) (counting (Raise (OtherError "db")))
           "get_waqf" 3600 client [Caching.ArgVal (VStr "w1")]
           [("limit", Caching.ArgVal (VInt 20))]
           (∅, 0%nat) (∅, 0%nat) (∅, 1%nat) None (OtherError "db"));
    [ reflexivity
    | apply (bool_decide_unpack _); vm_compute; exact I
    | left; reflexivity
    | vm_compute; reflexivity
    | reflexivity ].
Defined.

Lemma redis_cache_unserialisable_witness :
  cached_with client (Ret (Caching.ObjOther "set")) [Caching.ArgVal (VStr "w1")]
    [("limit", Caching.ArgVal (VInt 20))] (∅, 0%nat)
  = (Ret (Caching.ObjOther "set"), (∅, 1%nat)) /\
  cached_with mute_client (Ret (Caching.ObjOther "set")) [Caching.ArgVal (VStr "w1")]
    [("limit", Caching.ArgVal (VInt 20))] (∅, 0%nat)
  = (Raise AttributeError, (∅, 1%nat)).
Proof.
  split.
  - destruct (redis_cache_unserialisable Store show_arg show_exc store_get store_setex
                toy_loads toy_dumps (fun _ => ret tt)
                (counting (Ret (Caching.ObjOther "set")))
                "get_waqf" 3600 client [Caching.ArgVal (VStr "w1")]
                [("limit", Caching.ArgVal (VInt 20))]
                (∅, 0%nat) (∅, 0%nat) (∅, 1%nat) None (Caching.ObjOther "set") TypeError)
      as [_ H];
      [ reflexivity
      | apply (bool_decide_unpack _); vm_compute; exact I
      | left; reflexivity
      | vm_compute; reflexivity
      | reflexivity
      | reflexivity
      | left; reflexivity
      | ].
    apply H; reflexivity.
  - destruct (redis_cache_unserialisable Store show_arg show_exc store_get store_setex
                toy_loads toy_dumps (fun _ => ret tt)
                (counting (Ret (Caching.ObjOther "set")))
                "get_waqf" 3600 mute_client [Caching.ArgVal (VStr "w1")]
                [("limit", Caching.ArgVal (VInt 20))]
                (∅, 0%nat) (∅, 0%nat) (∅, 1%nat) None (Caching.ObjOther "set") TypeError)
      as [H _];
      [ reflexivity
      | apply (bool_decide_unpack _); vm_compute; exact I
      | left; reflexivity
      | vm_compute; reflexivity
      | reflexivity
      | reflexivity
      | left; reflexivity
      | ].
    apply H; reflexivity.
Defined.

Lemma redis_cache_memoises_witness :
  cached_with client (Ret (Caching.ObjJson (VInt 7))) [Caching.ArgVal (VStr "w1")]
    [("limit", Caching.ArgVal (VInt 20))] (∅, 0%nat)
  = (Ret (Caching.ObjJson (VInt 7)), ({["cache:get_waqf:w1:limit=n" := "7"]}, 1%nat)) /\
  cached_with client (Ret (Caching.ObjJson (VInt 7))) [Caching.ArgVal (VStr "w1")]
    [("limit", Caching.ArgVal (VInt 20))]
    ({["cache:get_waqf:w1:limit=n" := "7"]}, 1%nat)
  = (Ret (Caching.ObjJson (VInt 7)), ({["cache:get_waqf:w1:limit=n" := "7"]}, 1%nat)).
Proof.
  assert (H := redis_cache_memoises Store show_arg show_exc store_get store_setex
           toy_loads toy_dumps (fun _ => ret tt)
           (counting (Ret (Caching.ObjJson (VInt 7))))
           "get_waqf" 3600 client [Caching.ArgVal (VStr "w1")]
           [("limit", Caching.ArgVal (VInt 20))]
           (∅, 0%nat) (∅, 0%nat) (∅, 1%nat)
           ({["cache:get_waqf:w1:limit=n" := "7"]}, 1%nat)
           ({["cache:get_waqf:w1:limit=n" := "7"]}, 1%nat)
           (Caching.ObjJson (VInt 7)) "7").
  destruct H as [H1 H2];
    [ reflexivity
    | apply (bool_decide_unpack _); vm_compute; exact I
    | discriminate
    | vm_compute; reflexivity
    | reflexivity
    | vm_compute; reflexivity
    | vm_compute; reflexivity
    | vm_compute; reflexivity
    | ].
  split.
  - etrans; [exact H1 | reflexivity].
  - etrans; [exact H2 | vm_compute; reflexivity].
Defined.

Lemma cache_key_kwargs_order_witness :
  Caching._generate_cache_key show_arg "get_waqf" [Caching.ArgVal (VStr "w1")]
    [("skip", Caching.ArgVal (VInt 0)); ("limit", Caching.ArgVal (VInt 20))]
  = Caching._generate_cache_key show_arg "get_waqf" [Caching.ArgVal (VStr "w1")]
    [("limit", Caching.ArgVal (VInt 20)); ("skip", Caching.ArgVal (VInt 0))].
Proof.
  apply (cache_key_kwargs_order show_arg "get_waqf").
  - apply (bool_decide_unpack _). vm_compute. exact I.
  - apply Permutation_swap.
Defined.

Lemma cache_key_ignores_sessions_witness :
  Caching._generate_cache_key show_arg "get_waqf"
    ([Caching.ArgVal (VStr "w1")] ++ Caching.ArgSession :: [Caching.ArgVal (VInt 3)])
    [("db_session", Caching.ArgSession); ("limit", Caching.ArgVal (VInt 20))]
  = Caching._generate_cache_key show_arg "get_waqf"
    ([Caching.ArgVal (VStr "w1")] ++ [Caching.ArgVal (VInt 3)])
    [("limit", Caching.ArgVal (VInt 20))].
Proof.
  apply (cache_key_ignores_sessions show_arg "get_waqf").
  apply (bool_decide_unpack _). vm_compute. exact I.
Defined.

Lemma process_request_escapes_witness :
  resolve_module_type example_value (dict_get waqf_request "module")
    = Raise (OtherError "closed") \/
  Session_fault (with_close_fault quiet_env (OtherError "closed"))
    = Some (OtherError "closed") \/
  close_fault (with_close_fault quiet_env (OtherError "closed"))
    = Some (OtherError "closed").
Proof.
  apply (process_request_escapes example_hash example_genesis example_value
           (app_with donate_handler) (with_close_fault quiet_env (OtherError "closed"))
           "u1" waqf_request (world_with [])
           {| session_log := [SOpen; SExecute; SCommit; SClose];
              main_ledger := ledger_with [tx 100];
              sessions := ∅ |}).
  vm_compute. reflexivity.
Defined.

Lemma process_request_response_witness :
  let response : Dict :=
    <["additional_recommendations" := VList []]> (<["success" := VBool true]> ∅) in
  response = {["error" := VStr "Модуль не найден"]} \/
  (exists module_type,
     response = {["error" := VStr ("Module " +:+ example_value module_type +:+
                                   " does not have process_request method")]}) \/
  response = internal_error \/
  exists module_type module handler user_db result l1 recs,
    resolve_module_type example_value (dict_get waqf_request "module") = Ret module_type /\
    modules_lookup (modules (app_with donate_handler)) module_type = Some module /\
    mod_process_request module = Some handler /\
    execute_first quiet_env = Ret user_db /\
    handler "u1" (injected user_db waqf_request) (main_ledger (world_with []))
      = (Ret result, l1) /\
    generate_recommendations quiet_env "u1" (dict_get waqf_request "type") result
      = Ret recs /\
    response = <["additional_recommendations" := recs]> result /\
    forall k, k <> "additional_recommendations" -> response !! k = result !! k.
Proof.
  intros response.
  apply (process_request_response example_hash example_genesis example_value
           (app_with donate_handler) quiet_env "u1" waqf_request (world_with [])
           {| session_log := [SOpen; SExecute; SCommit; SClose];
              main_ledger := ledger_with [tx 100];
              sessions := ∅ |} response).
  vm_compute. reflexivity.
Defined.

Lemma process_request_fault_after_commit_witness :
  process_request example_hash example_genesis example_value
    (app_with donate_handler) (with_engine_fault quiet_env (OtherError "engine"))
    "u1" waqf_request (world_with [])
  = (Ret internal_error,
     {| session_log := [SOpen; SExecute; SCommit; SClose];
        main_ledger := ledger_with [tx 100];
        sessions := ∅ |}).
Proof.
  etrans.
  - apply (process_request_fault_after_commit example_hash example_genesis example_value
             (app_with donate_handler) (with_engine_fault quiet_env (OtherError "engine"))
             "u1" waqf_request (world_with [])
             UMMAH_WAQF (module_with donate_handler) donate_handler (VStr "ru")
             (<["success" := VBool true]> ∅) (ledger_with [tx 100])
             (OtherError "engine"));
      vm_compute; reflexivity.
  - vm_compute. reflexivity.
Defined.

Lemma process_request_commit_fault_witness :
  process_request example_hash example_genesis example_value
    (app_with donate_handler) (with_commit_fault quiet_env (OtherError "db"))
    "u1" waqf_request (world_with [])
  = (Ret internal_error,
     {| session_log := [SOpen; SExecute; SCommit; SClose];
        main_ledger := ledger_with [tx 100];
        sessions := ∅ |}).
Proof.
  etrans.
  - apply (process_request_commit_fault example_hash example_genesis example_value
             (app_with donate_handler) (with_commit_fault quiet_env (OtherError "db"))
             "u1" waqf_request (world_with [])
             UMMAH_WAQF (module_with donate_handler) donate_handler (VStr "ru")
             (<["success" := VBool true]> ∅) (ledger_with [tx 100])
             (OtherError "db"));
      vm_compute; reflexivity.
  - vm_compute. reflexivity.
Defined.

Lemma process_request_query_fault_witness :
  process_request example_hash example_genesis example_value
    (app_with donate_handler) (with_query_fault quiet_env (OtherError "db"))
    "u1" waqf_request (world_with [])
  = (Ret internal_error,
     {| session_log := [SOpen; SExecute; SClose];
        main_ledger := ledger_with [];
        sessions := ∅ |}).
Proof.
  etrans.
  - apply (process_request_query_fault example_hash example_genesis example_value
             (app_with donate_handler) (with_query_fault quiet_env (OtherError "db"))
             "u1" waqf_request (world_with [])
             UMMAH_WAQF (module_with donate_handler) donate_handler
             (OtherError "db"));
      vm_compute; reflexivity.
  - vm_compute. reflexivity.
Defined.

Lemma get_db_session_contract_witness :
  let env := with_commit_fault quiet_env (OtherError "db") in
  let body := session_add ;;; session_commit env in
  session_log (get_db_session env body (world_with [])).2
    = [SOpen; SAdd; SCommit; SRollback; SClose] /\
  (get_db_session env body (world_with [])).1 = Raise (OtherError "db").
Proof.
  intros env body.
  destruct (get_db_session_contract env body (world_with []) eq_refl)
    as (Hlog & _ & _ & Hout).
  split.
  - etrans; [exact Hlog | reflexivity].
  - etrans; [apply Hout; reflexivity | reflexivity].
Defined.

Lemma detect_initial_roles_rules_witness :
  (STUDENT ∈ [MUSLIM; STUDENT; ADMIN] <-> 18 <= now_year quiet_env - 2000 <= 30) /\
  (HOST_FAMILY ∈ [MUSLIM; STUDENT; ADMIN] <->
     admin_data !! "family_status" = Some (VStr "family")) /\
  (TEACHER ∈ [MUSLIM; STUDENT; ADMIN] <->
     exists word, word ∈ ["teacher"; "учитель"; "преподаватель"] /\
                  str_contains word (profession_text ascii_lower admin_data) = true) /\
  (INVESTOR ∈ [MUSLIM; STUDENT; ADMIN] <->
     exists word, word ∈ ["investor"; "инвестор"; "финанс"] /\
                  str_contains word (profession_text ascii_lower admin_data) = true).
Proof.
  apply (detect_initial_roles_rules ascii_lower quiet_env admin_data tt tt 2000
           "admin@example.com" [MUSLIM; STUDENT; ADMIN]).
  - vm_compute. reflexivity.
  - vm_compute. reflexivity.
  - left. vm_compute. reflexivity.
  - vm_compute. reflexivity.
Defined.

Lemma detect_initial_roles_ordered_witness :
  sublist [MUSLIM; STUDENT; ADMIN] role_order /\
  NoDup [MUSLIM; STUDENT; ADMIN] /\
  head [MUSLIM; STUDENT; ADMIN] = Some MUSLIM.
Proof.
  apply (detect_initial_roles_ordered ascii_lower quiet_env admin_data tt tt).
  vm_compute. reflexivity.
Defined.


Lemma register_user_missing_field_witness :
  exists k', k' ∈ required_fields /\ delete "phone" admin_data !! k' = None /\
    register_with (fun _ => Ret VNone) quiet_env (delete "phone" admin_data) (world_with [])
    = (Ret (false, show_exc (KeyError k'), None), world_with []).
Proof.
  apply (register_user_missing_field example_value (fun s => s) (fun _ => "v") show_exc
           ascii_lower (fun _ => Ret VNone) (app_with donate_handler) quiet_env
           (delete "phone" admin_data) (world_with []) "phone").
  - apply list_elem_of_In. simpl. auto.
  - vm_compute. reflexivity.
Defined.

Lemma register_user_bad_profession_witness :
  exists msg,
    register_with (fun _ => Ret VNone) quiet_env (<["profession" := VNone]> admin_data)
      (world_with [])
    = (Ret (false, msg, None), world_with []).
Proof.
  apply (register_user_bad_profession example_value (fun s => s) (fun _ => "v") show_exc
           ascii_lower (fun _ => Ret VNone) (app_with donate_handler) quiet_env
           (<["profession" := VNone]> admin_data) (world_with []) VNone).
  - vm_compute. reflexivity.
  - discriminate.
Defined.

Lemma register_user_commit_fault_witness :
  register_with (fun _ => Ret VNone) (with_commit_fault quiet_env (OtherError "db"))
    admin_data (world_with [])
  = (Ret (false, "db", None),
     {| session_log := [SOpen; SAdd; SCommit; SRollback; SClose];
        main_ledger := ledger_with [];
        sessions := ∅ |}).
Proof.
  assert (Hreq : forall k, k ∈ required_fields -> is_Some (admin_data !! k)).
  { intros k Hk. apply list_elem_of_In in Hk. simpl in Hk.
    destruct Hk as [<- | [<- | [<- | [<- | [<- | [<- | []]]]]]];
      vm_compute; eauto. }
  etrans.
  - apply (register_user_commit_fault example_value (fun s => s) (fun _ => "v") show_exc
             ascii_lower (fun _ => Ret VNone) (app_with donate_handler)
             (with_commit_fault quiet_env (OtherError "db")) admin_data (world_with [])
             [MUSLIM; STUDENT; ADMIN] (OtherError "db") Hreq);
      vm_compute; reflexivity.
  - vm_compute. reflexivity.
Defined.

Lemma register_user_success_effects_witness :
  exists uid reg w',
    register_with (fun _ => Ret VNone) quiet_env admin_data (world_with [])
      = (Ret (true, uid, Some reg), w') /\
    session_log w' = session_log (world_with []) ++ [SOpen; SAdd; SCommit; SClose] /\
    (String.length uid <= 12)%nat /\
    is_Some (sessions w' !! uid).
Proof.
  assert (Hrun : exists uid reg w',
            register_with (fun _ => Ret VNone) quiet_env admin_data (world_with [])
            = (Ret (true, uid, Some reg), w')) by (vm_compute; eauto).
  destruct Hrun as (uid & reg & w' & Hrun). exists uid, reg, w'.
  split; [exact Hrun |].
  destruct (register_user_success_effects example_value (fun s => s) (fun _ => "v")
              show_exc ascii_lower (fun _ => Ret VNone) (app_with donate_handler)
              quiet_env admin_data (world_with []) w' uid reg Hrun)
    as (Hlog & _ & _ & Hlen & (entry & Hentry & _) & _).
  split; [exact Hlog |]. split; [exact Hlen |]. exists entry. exact Hentry.
Defined.

Lemma register_user_late_failure_witness :
  exists w',
    register_with (fun _ => Raise (OtherError "no level")) quiet_env admin_data
      (world_with [])
    = (Ret (false, "no level", None), w') /\
    session_log w' = [SOpen; SAdd; SCommit; SClose] /\
    is_Some (sessions w' !! "v2026-01-01T").
Proof.
  assert (Hrun : exists uid reg w',
            register_with (fun _ => Ret VNone) quiet_env admin_data (world_with [])
            = (Ret (true, uid, Some reg), w') /\
            session_log w' = [SOpen; SAdd; SCommit; SClose] /\
            is_Some (sessions w' !! "v2026-01-01T")) by (vm_compute; eauto 10).
  destruct Hrun as (uid & reg & w' & Hrun & Hlog & Hentry). exists w'.
  split; [| split; [exact Hlog | exact Hentry]].
  exact (register_user_late_failure example_value (fun s => s) (fun _ => "v")
           show_exc ascii_lower (app_with donate_handler) quiet_env admin_data
           (world_with []) w' uid reg VNone (OtherError "no level") Hrun).
Defined.

Lemma example_value_injective (a b : ModuleType) :
  example_value a = example_value b -> a = b.
Proof. destruct a, b; simpl; intros H; try reflexivity; discriminate H. Qed.

Lemma resolve_module_type_value_witness :
  resolve_module_type example_value (VStr (example_value CAREER_UMMA)) = Ret CAREER_UMMA /\
  (forall v m', ModuleType_call example_value v = Ret m' ->
                v = VStr (example_value m')).
Proof.
  apply (resolve_module_type_value example_value CAREER_UMMA).
  - exact example_value_injective.
  - discriminate.
Defined.

Lemma sealing_triggers_no_empty_block_witness :
  exists b,
    chain (run_schedule example_hash example_genesis (logging_app donate_handler)
             busy_schedule).1 !! 2%nat = Some b /\
    transactions b <> [].
Proof.
  assert (Hb : exists b,
            chain (run_schedule example_hash example_genesis
                     (logging_app donate_handler) busy_schedule).1 !! 2%nat = Some b)
    by (vm_compute; eauto).
  destruct Hb as [b Hb]. exists b. split; [exact Hb |].
  exact (sealing_triggers_no_empty_block example_hash example_genesis
           (logging_app donate_handler) busy_schedule 1 b eq_refl Hb).
Defined.

Lemma prioritize_recommendations_top_witness :
  let out := [ rec_with "high" "j"; rec_with "high" "f"; rec_with "high" "b";
               rec_with "medium" "l"; rec_with "medium" "h"; rec_with "medium" "c";
               rec_with "low" "k"; rec_with "low" "i"; rec_with "urgent" "g";
               {["title" := VStr "e"]} ] in
  length out = Nat.min 10 (length twelve_recommendations) /\
  StronglySorted (fun x y => weight_of y <= weight_of x) out /\
  exists rest,
    out ++ rest ≡ₚ twelve_recommendations /\
    (forall x y, x ∈ out -> y ∈ rest -> weight_of y <= weight_of x).
Proof.
  intros out.
  apply (prioritize_recommendations_top (fun n => Z.of_nat n) twelve_recommendations out).
  vm_compute. reflexivity.
Defined.


Lemma toy_urlparse_faults (url : string) (e : PyExc) :
  toy_urlparse url = Raise e -> e = ValueError.
Proof.
  unfold toy_urlparse. destruct (String.eqb url "["); [congruence |].
  destruct (String.prefix "http://" url); discriminate.
Qed.

Lemma register_nodes_registry_witness :
  (exists total,
     register_nodes toy_urlparse ["http://a:5000"; "["; "b:5001"] {["c:1"]}
       = (Ret ("Новые узлы успешно добавлены", total), total) /\
     ({["c:1"]} : gset string) ⊆ total /\
     (forall url address,
        url ∈ ["http://a:5000"; "["; "b:5001"] ->
        node_address toy_urlparse url = Some address -> address ∈ total) /\
     register_nodes toy_urlparse ["http://a:5000"; "["; "b:5001"] total
       = register_nodes toy_urlparse ["http://a:5000"; "["; "b:5001"] {["c:1"]}) /\
  (["http://a:5000"; "["; "b:5001"] ≡ₚ ["b:5001"; "http://a:5000"; "["] ->
   register_nodes toy_urlparse ["b:5001"; "http://a:5000"; "["] {["c:1"]}
     = register_nodes toy_urlparse ["http://a:5000"; "["; "b:5001"] {["c:1"]}).
Proof.
  exact (register_nodes_registry toy_urlparse toy_urlparse_faults
           ["http://a:5000"; "["; "b:5001"] ["b:5001"; "http://a:5000"; "["] {["c:1"]}).
Defined.

Lemma get_daily_dashboard_recommendations_witness :
  (get_daily_dashboard (Ret (Some (VStr "Ali", VStr "junior"))) toy_daily
     (app_with donate_handler) quiet_env "u1" (world_with [])).1
  = Ret (<["recommendations" := VList [VStr "pray"; VStr "apply"; VStr "learn"]]>
           {["user_name" := VStr "Ali"]}).
Proof.
  rewrite (get_daily_dashboard_recommendations
             (Ret (Some (VStr "Ali", VStr "junior"))) toy_daily
             (app_with donate_handler) quiet_env "u1" (world_with [])
             (VStr "Ali") (VStr "junior") eq_refl eq_refl eq_refl).
  reflexivity.
Defined.

Lemma get_daily_dashboard_no_user_witness :
  get_daily_dashboard (Raise (OtherError "db")) toy_daily
    (app_with donate_handler) quiet_env "u1" (world_with [])
  = (Raise (OtherError "db"),
     {| session_log := [SOpen; SExecute; SRollback; SClose];
        main_ledger := ledger_with [];
        sessions := ∅ |}).
Proof.
  destruct (get_daily_dashboard_no_user (Raise (OtherError "db")) toy_daily
              (app_with donate_handler) quiet_env "u1" (world_with [])
              eq_refl eq_refl eq_refl) as [H _].
  etrans; [apply H; reflexivity | reflexivity].
Defined.

Lemma waqf_endpoints_response_witness :
  exists body w',
    Routers.list_available_waqfs example_hash example_genesis example_value 0 20
      (app_with donate_handler) quiet_env (world_with []) = (Routers.Response body, w') /\
    truthy (dict_get body "success") = true /\
    session_log w' = [SOpen; SExecute; SCommit; SClose].
Proof.
  assert (Hrun : exists body w',
            Routers.list_available_waqfs example_hash example_genesis example_value 0 20
              (app_with donate_handler) quiet_env (world_with [])
            = (Routers.Response body, w')) by (vm_compute; eauto).
  destruct Hrun as (body & w' & Hrun). exists body, w'. split; [exact Hrun |].
  destruct (waqf_endpoints_response example_hash example_genesis example_value
              (app_with donate_handler) quiet_env (world_with []) w' body 0 20 ∅ "u1"
              (or_introl Hrun)) as (Hok & _ & Hlog).
  split; [exact Hok | exact Hlog].
Defined.

Lemma periodic_task_without_logger_witness :
  _periodic_block_creation_task example_hash example_genesis (app_with donate_handler)
    [quiet_env; quiet_env] (ledger_with [tx 1; tx 2])
  = (Raise AttributeError, ledger_with [tx 1; tx 2]).
Proof.
  apply (periodic_task_without_logger example_hash example_genesis
           (app_with donate_handler) quiet_env [quiet_env] (ledger_with [tx 1; tx 2])).
  reflexivity.
Defined.
